(** * A shallow embedding of the blog backend (index.js, passport-config.js,
      test-server.js) and the properties of its request handlers.

    The handlers are written in a small state-and-exception monad: the state
    carries the external data store and the trace of everything a handler
    does to the outside world (store queries, responses, cookies).  The data
    store, the JWT library and bcrypt are collaborators outside the
    repository; they are taken as parameters.  JavaScript numbers are
    modelled as the integer-valued doubles they are, with their rounding,
    and [console] output is left out. *)

From Stdlib Require Import ZArith Ascii String List Bool Lia.
From stdpp Require Import base option gmap strings.

Import ListNotations.
Local Open Scope string_scope.
Local Open Scope Z_scope.

(** ** JavaScript primitives used by the handlers *)

Module JS.

(** [s.split(sep)] for a one-character separator. *)
Fixpoint split (sep : ascii) (s : string) : list string :=
    match s with
    | EmptyString => [EmptyString]
    | String c r =>
        if Ascii.eqb c sep then EmptyString :: split sep r
        else match split sep r with
             | h :: t => String c h :: t
             | [] => [String c EmptyString]
             end
    end.

(** Truthiness of a value that is either [undefined] ([None]) or a string:
      [undefined] and the empty string are falsy. *)
Definition truthy (v : option string) : bool :=
    match v with
    | Some s => negb (String.eqb s EmptyString)
    | None => false
    end.

(** [a || b] on such values. *)
Definition or (a b : option string) : option string :=
    if truthy a then a else b.

(** A number of this program.  Every number the handlers compute with is
    an integer-valued IEEE 754 double, an infinity or NaN; [Fin z] carries
    an integer that a double represents exactly.  The two zeros are the one
    [Fin 0]: nothing here tells them apart (both are falsy, both are
    written 0, and no number is divided by a zero). *)
Inductive number :=
| NaN
| Inf (negative : bool)
| Fin (z : Z).

(** The double nearest to an integer: 53 significant bits, a tie goes to
    the even significand, and what reaches 2^1024 is an infinity. *)
Definition round (z : Z) : number :=
    let n := Z.abs z in
    if n <? 2 ^ 53 then Fin z
    else
      let k := Z.log2 n - 52 in
      let q := n / 2 ^ k in
      let r := n mod 2 ^ k in
      let half := 2 ^ (k - 1) in
      let q' := if (half <? r) || ((r =? half) && Z.odd q) then q + 1 else q in
      let m := q' * 2 ^ k in
      if 2 ^ 1024 <=? m then Inf (z <? 0) else Fin (Z.sgn z * m).

(** [- a] *)
Definition neg (a : number) : number :=
    match a with
    | NaN => NaN
    | Inf s => Inf (negb s)
    | Fin z => Fin (- z)
    end.

(** [a + b]: the exact sum, rounded. *)
Definition add (a b : number) : number :=
    match a, b with
    | NaN, _ | _, NaN => NaN
    | Inf s, Inf t => if Bool.eqb s t then Inf s else NaN
    | Inf s, Fin _ | Fin _, Inf s => Inf s
    | Fin x, Fin y => round (x + y)
    end.

(** [a - b] *)
Definition sub (a b : number) : number := add a (neg b).

(** [a * b]: the exact product, rounded. *)
Definition mul (a b : number) : number :=
    match a, b with
    | NaN, _ | _, NaN => NaN
    | Inf s, Inf t => Inf (xorb s t)
    | Inf s, Fin y | Fin y, Inf s => if y =? 0 then NaN else Inf (xorb s (y <? 0))
    | Fin x, Fin y => round (x * y)
    end.

(** [a < b] *)
Definition lt (a b : number) : bool :=
    match a, b with
    | NaN, _ | _, NaN => false
    | Inf s, Inf t => s && negb t
    | Inf s, Fin _ => s
    | Fin _, Inf t => negb t
    | Fin x, Fin y => x <? y
    end.

(** [Math.min(a, b)] *)
Definition min (a b : number) : number :=
    match a, b with
    | NaN, _ | _, NaN => NaN
    | _, _ => if lt b a then b else a
    end.

(** Truthiness of a number: NaN and 0 are falsy. *)
Definition truthy_num (n : number) : bool :=
    match n with
    | NaN => false
    | Inf _ => true
    | Fin z => negb (z =? 0)
    end.

(** [n || d] on numbers. *)
Definition or_num (n d : number) : number :=
    if truthy_num n then n else d.

(** The scale that makes the smallest positive double, 2^-1074, the
    unit. *)
Definition scale : Z := 2 ^ 1074.

(** The double nearest to [n / d], for positive integers [n] and [d], as a
    pair [(m, G)] that stands for [m * G / scale]: [G] is the distance
    between neighbouring doubles at the size of the quotient, in units of
    2^-1074, and [m] the nearest multiple, a tie going to the even one. *)
Definition quotient (n d : Z) : Z * Z :=
    let N := n * scale in
    let g := Z.max 0 (Z.log2 (N / d) - 52) in
    let G := 2 ^ g in
    let D := d * G in
    let q := N / D in
    let r := N mod D in
    let m := if (D <? 2 * r) || ((2 * r =? D) && Z.odd q) then q + 1 else q in
    (m, G).

(** [Math.ceil(a / b)]: the quotient is rounded to a double first, then
    raised to an integer.  A zero divisor is taken as the positive zero; no
    handler divides by zero. *)
Definition ceil_quot (a b : number) : number :=
    match a, b with
    | NaN, _ | _, NaN => NaN
    | Inf _, Inf _ => NaN
    | Inf s, Fin y => Inf (xorb s (y <? 0))
    | Fin _, Inf _ => Fin 0
    | Fin x, Fin y =>
        if y =? 0 then (if x =? 0 then NaN else Inf (x <? 0))
        else if x =? 0 then Fin 0
        else
          let (m, G) := quotient (Z.abs x) (Z.abs y) in
          let v := m * G in
          let negative := xorb (x <? 0) (y <? 0) in
          if 2 ^ 1024 * scale <=? v then Inf negative
          else if negative then Fin (- (v / scale))
          else Fin (- ((- v) / scale))
    end.

(** A count read from the reply of the store, then [count || 0]: [null]
    gives 0. *)
Definition count_or_zero (count : option Z) : number :=
    match count with
    | Some z => or_num (round z) (Fin 0)
    | None => Fin 0
    end.

(** White space stripped by [trim] and skipped by [parseInt] (the ASCII
      part of it; strings are byte strings here). *)
Definition is_space (c : ascii) : bool :=
    let n := nat_of_ascii c in
    ((9 <=? n) && (n <=? 13))%nat || (n =? 32)%nat.

Fixpoint trim_start (s : string) : string :=
    match s with
    | String c r => if is_space c then trim_start r else s
    | EmptyString => EmptyString
    end.

(** Drops the white space at the end: a character is kept when it is not
      a space or something is kept after it. *)
Fixpoint trim_end (s : string) : string :=
    match s with
    | EmptyString => EmptyString
    | String c r =>
        match trim_end r with
        | EmptyString => if is_space c then EmptyString else String c EmptyString
        | r' => String c r'
        end
    end.

(** [s.trim()] *)
Definition trim (s : string) : string := trim_end (trim_start s).

Definition lower_char (c : ascii) : ascii :=
    let n := nat_of_ascii c in
    if ((65 <=? n) && (n <=? 90))%nat then ascii_of_nat (n + 32) else c.

(** [s.toLowerCase()] on the ASCII letters. *)
Fixpoint toLowerCase (s : string) : string :=
    match s with
    | EmptyString => EmptyString
    | String c r => String (lower_char c) (toLowerCase r)
    end.

(** String conversion of a value that may be [undefined], as done by the
      [+] operator when the other operand is a string. *)
Definition to_string (v : option string) : string :=
    match v with
    | Some s => s
    | None => "undefined"
    end.

(** Value of a digit in the given radix, if it is one. *)
Definition digit_val (radix : Z) (c : ascii) : option Z :=
    let n := Z.of_nat (nat_of_ascii c) in
    let d := if (48 <=? n) && (n <=? 57) then Some (n - 48)
             else if (97 <=? n) && (n <=? 122) then Some (n - 87)
             else if (65 <=? n) && (n <=? 90) then Some (n - 55)
             else None in
    match d with
    | Some v => if v <? radix then Some v else None
    | None => None
    end.

(** The longest prefix of digits, accumulated; [None] when there is no
      digit at all. *)
Fixpoint digits (radix : Z) (acc : option Z) (s : string) : option Z :=
    match s with
    | EmptyString => acc
    | String c r =>
        match digit_val radix c with
        | Some v => digits radix (Some (radix * default 0 acc + v)) r
        | None => acc
        end
    end.

(** After the sign: a [0x] or [0X] prefix selects radix 16. *)
Definition unsigned (s : string) : option Z :=
    match s with
    | String "0" (String "x" r) | String "0" (String "X" r) => digits 16 None r
    | _ => digits 10 None s
    end.

(** The least integer that is not below [a / b], for [b <> 0]. *)
Definition ceil_div (a b : Z) : Z := - ((- a) / b).

(** The number of an optional integer: none is NaN. *)
Definition number_of (o : option Z) : number :=
    match o with
    | Some z => round z
    | None => NaN
    end.

(** [parseInt(v)] with no radix argument: the integer the digits denote,
    as the nearest double, and NaN when there is no digit.  An absent query
    parameter is [undefined], which converts to a string without
    digits. *)
Definition parseInt (v : option string) : number :=
    match trim_start (to_string v) with
    | String "-" r => number_of (Z.opp <$> unsigned r)
    | String "+" r => number_of (unsigned r)
    | s => number_of (unsigned s)
    end.

End JS.

Coercion JS.Fin : Z >-> JS.number.

Arguments JS.round : simpl never.
Arguments JS.quotient : simpl never.
Arguments JS.ceil_quot : simpl never.
Arguments JS.parseInt : simpl never.

(** ** JSON bodies *)

#[warnings="-register-all"] Inductive json : Type :=
| JNull
| JBool (b : bool)
| JNum (z : Z)
| JStr (s : string)
| JArr (items : list json)
| JObj (fields : list (string * json)).

(** A key occurs somewhere in a JSON value, at any depth. *)
Fixpoint has_key (k : string) (j : json) : bool :=
  match j with
  | JArr items => existsb (has_key k) items
  | JObj fields =>
      existsb (fun kv => String.eqb (fst kv) k || has_key k (snd kv)) fields
  | _ => false
  end.

(** [JSON.stringify] of a number: what is not finite is written [null]. *)
Definition json_of_number (n : JS.number) : json :=
  match n with
  | JS.Fin z => JNum z
  | _ => JNull
  end.

Definition jopt {A} (f : A -> json) (o : option A) : json :=
  match o with
  | Some a => f a
  | None => JNull
  end.

(** ** Data model *)

(** A row of the Users table as [select("*")] returns it. *)
Record user_row := {
  user_id : Z;
  user_name : string;
  user_email : string;
  user_password : option string;          (* null for OAuth-only accounts *)
  user_profile_picture : option string;
  user_created_at : string
}.

(** The user embedded in a listed post by [Users (id, name, email)]. *)
Record post_author := {
  author_id : Z;
  author_name : string;
  author_email : string
}.

(** A row of the Posts table. *)
Record post_row := {
  post_id : Z;
  post_title : string;
  post_body : string;
  post_user_id : Z;
  post_created_at : string;
  post_Users : option post_author
}.

(** The error object of the store client. *)
Record pg_error := {
  err_code : string;
  err_message : string
}.

(** The decoded payload of a session token. *)
Record claims := {
  claim_id : Z;
  claim_email : string
}.

Definition json_of_error (e : pg_error) : json :=
  JObj [("code", JStr (err_code e)); ("message", JStr (err_message e))].

Definition json_of_author (a : post_author) : json :=
  JObj [("id", JNum (author_id a)); ("name", JStr (author_name a));
        ("email", JStr (author_email a))].

Definition json_of_post (p : post_row) : json :=
  JObj ([("id", JNum (post_id p)); ("title", JStr (post_title p));
         ("body", JStr (post_body p)); ("user_id", JNum (post_user_id p));
         ("created_at", JStr (post_created_at p))]
        ++ match post_Users p with
           | Some a => [("Users", json_of_author a)]
           | None => []
           end).

(** ** The data store *)

(** Queries on the Users table; each ends in [.single()]. *)
Inductive user_query :=
| SelectUserByEmail (email : string)
| SelectUserById (id : Z)
| InsertUser (name email : string) (password : option string).

(** Queries on the Posts table that end in [.single()].  [returning] tells
    whether the delete chain contains [.select()]. *)
Inductive post_query :=
| InsertPost (title body : string) (uid : Z)
| UpdatePost (id : string) (uid : Z) (title body : string)
| DeletePost (id : string) (uid : Z) (returning : bool).

(** The listing query: newest first, optional [ilike] filter on the title
    (the pattern is given when [search] is truthy), [range(start, end)],
    exact count. *)
Record list_query := {
  lq_pattern : option string;
  lq_start : JS.number;
  lq_end : JS.number
}.

(** What awaiting a query yields: [{ data, error }]. *)
Record reply (A : Type) := {
  data : option A;
  error : option pg_error
}.
Arguments data {A} _.
Arguments error {A} _.

(** The row of a reply that carries one and no error: the test
    [row && !error] of the handlers. *)
Definition ok_row {A} (r : reply A) : option A :=
  match data r, error r with
  | Some a, None => Some a
  | _, _ => None
  end.

(** [{ data, count, error }] of the listing query. *)
Record list_reply := {
  l_data : option (list post_row);
  l_count : option Z;
  l_error : option pg_error
}.

(** The store as a state machine over its own state [db]. *)
Record Store (db : Type) := {
  run_user : user_query -> db -> reply user_row * db;
  run_post : post_query -> db -> reply post_row * db;
  run_list : list_query -> db -> list_reply * db
}.
Arguments run_user {db} _ _ _.
Arguments run_post {db} _ _ _.
Arguments run_list {db} _ _ _.

(** ** Effects of a handler *)

Record cookie_options := {
  sameSite : string;
  secure : bool
}.

Inductive event :=
| EUserQuery (q : user_query)
| EPostQuery (q : post_query)
| EListQuery (q : list_query)
| EVerify (token : string)                       (* jwt.verify(token, secret) *)
| ECookie (name : option string) (value : string) (o : cookie_options)
| ESend (status : Z) (body : json)               (* res.status(s).json(b) *)
| ESendAgain (status : Z) (body : json).         (* the same, once a response is out *)

Inductive exn :=
| TypeError (what : string)        (* a property read on null or undefined *)
| JsonWebTokenError (msg : string) (* thrown by jwt.verify *)
| ERR_HTTP_HEADERS_SENT.           (* a header set after the response was sent *)

(** [err.message] *)
Definition exn_message (e : exn) : string :=
  match e with
  | TypeError what => "Cannot read properties of null (reading " ++ what ++ ")"
  | JsonWebTokenError msg => msg
  | ERR_HTTP_HEADERS_SENT => "Cannot set headers after they are sent to the client"
  end.

Inductive outcome (A : Type) :=
| Returned (a : A)
| Thrown (e : exn).
Arguments Returned {A} _.
Arguments Thrown {A} _.

Record state (db : Type) := {
  st_db : db;
  st_log : list event
}.
Arguments st_db {db} _.
Arguments st_log {db} _.

Definition M (db A : Type) : Type := state db -> outcome A * state db.

#[global] Instance M_ret {db} : MRet (M db) :=
  fun A a s => (Returned a, s).

#[global] Instance M_bind {db} : MBind (M db) :=
  fun A B k m s =>
    match m s with
    | (Returned a, s') => k a s'
    | (Thrown e, s') => (Thrown e, s')
    end.

Definition throw {db A} (e : exn) : M db A := fun s => (Thrown e, s).

(** [try { m } catch (err) { h err }] *)
Definition try_catch {db A} (m : M db A) (h : exn -> M db A) : M db A :=
  fun s => match m s with
           | (Returned a, s') => (Returned a, s')
           | (Thrown e, s') => h e s'
           end.

Definition emit {db} (e : event) : M db unit :=
  fun s => (Returned tt, {| st_db := st_db s; st_log := st_log s ++ [e] |}).

Definition is_send (e : event) : bool :=
  match e with
  | ESend _ _ => true
  | _ => false
  end.

(** [res.headersSent] *)
Definition headers_sent (l : list event) : bool := existsb is_send l.

(** [res.status(status).json(body)].  The first call puts the response on
    the wire.  A later call still runs, and fails when it sets the
    Content-Type header of a response that is already out. *)
Definition send {db} (status : Z) (body : json) : M db unit :=
  fun s =>
    if headers_sent (st_log s)
    then (Thrown ERR_HTTP_HEADERS_SENT,
          {| st_db := st_db s; st_log := st_log s ++ [ESendAgain status body] |})
    else (Returned tt,
          {| st_db := st_db s; st_log := st_log s ++ [ESend status body] |}).

Definition message (m : string) : json := JObj [("message", JStr m)].

(** The response the client receives: the first one sent. *)
Fixpoint response_of (l : list event) : option (Z * json) :=
  match l with
  | [] => None
  | ESend st b :: _ => Some (st, b)
  | _ :: r => response_of r
  end.

(** Every call of [res.json], in order, whether it reached the client or
    not. *)
Fixpoint json_calls (l : list event) : list (Z * json) :=
  match l with
  | [] => []
  | ESend st b :: r | ESendAgain st b :: r => (st, b) :: json_calls r
  | _ :: r => json_calls r
  end.

(** ** Requests and the collaborators outside the repository *)

(** The parts of [req] the handlers read.  The fields of [req.body] and of
    [req.query] that the handlers read are strings when present.
    [cookie_jar] is [req.cookies]: its properties, name and value, in the
    order [Object.keys] lists them. *)
Record request := {
  headers : gmap string string;
  cookie_jar : option (list (string * string));
  body : gmap string string;
  query : gmap string string;
  params_id : string;
  user : option claims                   (* [req.user], set by the middleware *)
}.

(** [req.cookies] as the map its property reads go through. *)
Definition cookies (req : request) : option (gmap string string) :=
  list_to_map <$> cookie_jar req.

(** [Object.keys(req.cookies || {})] *)
Definition cookie_names (req : request) : list string :=
  (default [] (cookie_jar req)).*1.

Definition with_user (req : request) (c : claims) : request :=
  {| headers := headers req; cookie_jar := cookie_jar req; body := body req;
     query := query req; params_id := params_id req; user := Some c |}.

(** [process.env] *)
Record Env := {
  COOKIE_NAME : option string;
  NODE_ENV : option string
}.

(** The store, the environment and the two libraries.  [jwt_verify] returns
    the decoded payload, or the message of the error it throws;
    [bcrypt_compare plaintext hash] is the awaited result of the
    comparison. *)
Record World (db : Type) := {
  store : Store db;
  env : Env;
  jwt_verify : string -> claims + string;
  jwt_sign : claims -> string;
  bcrypt_hash : string -> string;
  bcrypt_compare : string -> string -> bool
}.
Arguments store {db} _.
Arguments env {db} _.
Arguments jwt_verify {db} _ _.
Arguments jwt_sign {db} _ _.
Arguments bcrypt_hash {db} _ _.
Arguments bcrypt_compare {db} _ _ _.

Section Queries.
Context {db : Type} (W : World db).

(** Awaiting a query: it is recorded, and the store answers and moves. *)
Definition query_user (q : user_query) : M db (reply user_row) :=
    fun s => let (r, d) := run_user (store W) q (st_db s) in
             (Returned r, {| st_db := d; st_log := st_log s ++ [EUserQuery q] |}).

Definition query_post (q : post_query) : M db (reply post_row) :=
    fun s => let (r, d) := run_post (store W) q (st_db s) in
             (Returned r, {| st_db := d; st_log := st_log s ++ [EPostQuery q] |}).

Definition query_list (q : list_query) : M db list_reply :=
    fun s => let (r, d) := run_list (store W) q (st_db s) in
             (Returned r, {| st_db := d; st_log := st_log s ++ [EListQuery q] |}).

(** The key [process.env.COOKIE_NAME] indexes [req.cookies] with. *)
Definition cookie_key : string := JS.to_string (COOKIE_NAME (env W)).

(** [req.cookies && req.cookies[process.env.COOKIE_NAME]] *)
Definition cookie_token (req : request) : option string :=
    match cookies req with
    | Some c => c !! cookie_key
    | None => None
    end.

Definition is_production : bool :=
    match NODE_ENV (env W) with
    | Some v => String.eqb v "production"
    | None => false
    end.
End Queries.

(** A handler starts on an empty trace. *)
Definition start {db} (d : db) : state db := {| st_db := d; st_log := [] |}.

(** The trace a handler leaves. *)
Definition trace {db A} (m : M db A) (d : db) : list event := st_log (snd (m (start d))).

(** How a handler ends. *)
Definition result {db A} (m : M db A) (d : db) : outcome A := fst (m (start d)).

(** ** index.js *)

Module Index.
Section Handlers.
Context {db : Type} (W : World db).

(** [const authHeader = req.headers["authorization"] || ""] *)
Definition authHeader (req : request) : string :=
    default EmptyString (JS.or (headers req !! "authorization") (Some EmptyString)).

(** [authHeader && authHeader.split(" ")[1]] *)
Definition headerToken (req : request) : option string :=
    if JS.truthy (Some (authHeader req))
    then JS.split " " (authHeader req) !! 1%nat
    else Some (authHeader req).

(** [headerToken || cookieToken] *)
Definition token (req : request) : option string :=
    JS.or (headerToken req) (cookie_token W req).

Definition authenticateToken (req : request) (next : request -> M db unit)
    : M db unit :=
    if negb (JS.truthy (token req))
    then send 401 (message "Invalid or no token found")
    else
      let t := default EmptyString (token req) in
      emit (EVerify t);;
      match jwt_verify W t with
      | inl decoded => next (with_user req decoded)
      | inr _ => send 401 (message "Invalid token")
      end.

Definition generateTokenAndSetCookie (u : user_row) : M db string :=
    let token := jwt_sign W {| claim_id := user_id u; claim_email := user_email u |} in
    let cookieOptions :=
      if is_production W
      then {| sameSite := "none"; secure := true |}
      else {| sameSite := "lax"; secure := false |} in
    emit (ECookie (COOKIE_NAME (env W)) token cookieOptions);;
    mret token.

(** The [try] block of POST /auth/register. *)
Definition register_try (name email password : string) : M db unit :=
    r ← query_user W (SelectUserByEmail email);
    match data r with
    | Some _ => send 400 (message "user already exists")
    | None =>
        let hashedPassword := bcrypt_hash W password in
        r' ← query_user W (InsertUser name email (Some hashedPassword));
        (if error r' is Some _
         then send 500 (message "error creating user")
         else mret tt);;
        match data r' with
        | Some newUser =>
            send 201 (JObj [("message", JStr "User created successfully");
                            ("user", JObj [("id", JNum (user_id newUser));
                                           ("name", JStr (user_name newUser));
                                           ("email", JStr (user_email newUser))])])
        | None => throw (TypeError "id")
        end
    end.

Definition register (req : request) : M db unit :=
    let name := body req !! "name" in
    let email := body req !! "email" in
    let password := body req !! "password" in
    if negb (JS.truthy name) || negb (JS.truthy email) || negb (JS.truthy password)
    then send 400 (message "all fields are required")
    else
      try_catch
        (register_try (default EmptyString name) (default EmptyString email)
           (default EmptyString password))
        (fun _ => send 500 (JObj [("error", JStr "internal server error")])).

Definition login (req : request) : M db unit :=
    let email := body req !! "email" in
    let password := body req !! "password" in
    if negb (JS.truthy email) || negb (JS.truthy password)
    then send 400 (message "Both email and password are required")
    else
      try_catch
        (r ← query_user W (SelectUserByEmail (default EmptyString email));
         match ok_row r with
         | Some u =>
             if negb (JS.truthy (user_password u))
             then send 400 (message
                    "This account uses Google login. Please sign in with Google.")
             else
               if negb (bcrypt_compare W (default EmptyString password)
                          (default EmptyString (user_password u)))
               then send 400 (message "Invalid credentials")
               else
                 generateTokenAndSetCookie u;;
                 send 200 (JObj [("message", JStr "Login successful");
                                 ("user", JObj [("id", JNum (user_id u));
                                                ("name", JStr (user_name u));
                                                ("email", JStr (user_email u));
                                                ("profile_picture",
                                                 jopt JStr (user_profile_picture u))])])
         | None => send 400 (message "User not found")
         end)
        (fun _ => send 500 (message "Internal server error")).

Definition me (req : request) : M db unit :=
    try_catch
      (let cookieToken := cookie_token W req in
       if negb (JS.truthy cookieToken)
       then send 401 (JObj [("user", JNull); ("debug", JStr "no_cookie");
                            ("availableCookies",
                             JArr (JStr <$> cookie_names req))])
       else
         let t := default EmptyString cookieToken in
         emit (EVerify t);;
         match jwt_verify W t with
         | inr msg => throw (JsonWebTokenError msg)
         | inl decoded =>
             r ← query_user W (SelectUserById (claim_id decoded));
             match error r, data r with
             | None, Some u =>
                 send 200 (JObj [("user", JObj [("id", JNum (user_id u));
                                                ("name", JStr (user_name u));
                                                ("email", JStr (user_email u));
                                                ("created_at", JStr (user_created_at u));
                                                ("profile_picture",
                                                 jopt JStr (user_profile_picture u))])])
             | e, _ =>
                 send 401 (JObj ([("user", JNull); ("debug", JStr "user_not_found")]
                                 ++ match e with
                                    | Some e' => [("error", JStr (err_message e'))]
                                    | None => []
                                    end))
             end
         end)
      (fun err => send 401 (JObj [("user", JNull); ("debug", JStr "token_invalid");
                                  ("error", JStr (exn_message err))])).

(** [let page = parseInt(req.query.page) || 1; if (page < 1) page = 1] *)
Definition page_of (req : request) : JS.number :=
    let page := JS.or_num (JS.parseInt (query req !! "page")) (JS.Fin 1) in
    if JS.lt page (JS.Fin 1) then JS.Fin 1 else page.

(** [let limit = parseInt(req.query.limit) || 10;
      limit = Math.min((1, limit), 100)]: the comma expression [(1, limit)]
      has the value of [limit]. *)
Definition limit_of (req : request) : JS.number :=
    let limit := JS.or_num (JS.parseInt (query req !! "limit")) (JS.Fin 10) in
    JS.min limit (JS.Fin 100).

(** [const start = (page - 1) * limit; const end = start + limit - 1] *)
Definition start_of (req : request) : JS.number :=
    JS.mul (JS.sub (page_of req) (JS.Fin 1)) (limit_of req).
Definition end_of (req : request) : JS.number :=
    JS.sub (JS.add (start_of req) (limit_of req)) (JS.Fin 1).

(** The query built by GET /posts. *)
Definition posts_query (req : request) : list_query :=
    let search := JS.or (query req !! "search") (Some EmptyString) in
    {| lq_pattern := if JS.truthy search
                     then Some ("%" ++ default EmptyString search ++ "%")
                     else None;
       lq_start := start_of req;
       lq_end := end_of req |}.

Definition get_posts (req : request) : M db unit :=
    try_catch
      (r ← query_list W (posts_query req);
       match l_error r with
       | Some e => send 500 (JObj [("message", JStr "error fetching posts");
                                   ("error", json_of_error e)])
       | None =>
           let count := JS.count_or_zero (l_count r) in
           send 200 (JObj [("posts", jopt (fun l => JArr (json_of_post <$> l)) (l_data r));
                           ("totalPosts", json_of_number count);
                           ("totalPages",
                            json_of_number (JS.ceil_quot count (limit_of req)));
                           ("currentPage", json_of_number (page_of req))])
       end)
      (fun _ => send 500 (message "posts fetch failed on server")).

(** [req.user.id] *)
Definition req_user_id (req : request) : M db Z :=
    match user req with
    | Some c => mret (claim_id c)
    | None => throw (TypeError "id")
    end.

Definition create_post (req : request) : M db unit :=
    let title := body req !! "title" in
    let body_ := body req !! "body" in
    if negb (JS.truthy title) || negb (JS.truthy body_)
    then send 400 (message "title and body are required")
    else
      try_catch
        (uid ← req_user_id req;
         r ← query_post W (InsertPost (default EmptyString title)
                             (default EmptyString body_) uid);
         match error r with
         | Some e => send 500 (JObj [("message", JStr "error creating post");
                                     ("error", json_of_error e)])
         | None => send 201 (JObj [("message", JStr "post created successfully");
                                   ("post", jopt json_of_post (data r))])
         end)
        (fun _ => send 500 (message "internal server error")).

(** The [try] block of PUT /posts/:id. *)
Definition update_post_try (req : request) (title body_ : string) : M db unit :=
    uid ← req_user_id req;
    r ← query_post W (UpdatePost (params_id req) uid title body_);
    (if error r is Some _
     then send 400 (message "Not authorized to update this post ")
     else mret tt);;
    send 200 (JObj [("updatedPost", jopt json_of_post (data r))]).

Definition update_post (req : request) : M db unit :=
    let title := body req !! "title" in
    let body_ := body req !! "body" in
    if negb (JS.truthy title) || negb (JS.truthy body_)
    then send 400 (message "title and body are required")
    else
      try_catch
        (update_post_try req (default EmptyString title) (default EmptyString body_))
        (fun _ => send 500 (message "internal server error")).

Definition delete_post (req : request) : M db unit :=
    let postId := params_id req in
    try_catch
      (uid ← req_user_id req;
       r ← query_post W (DeletePost postId uid false);
       match error r with
       | Some _ => send 400 (message "not authorized to delete this post")
       | None => send 200 (JObj [("message", JStr "post deleted successfully");
                                 ("post", jopt json_of_post (data r))])
       end)
      (fun _ => send 500 (message "internal server error")).

(** POST /auth/logout.  [res.clearCookie(name, options)] sets the cookie
    to the empty value with an expiry in the past. *)
Definition logout (req : request) : M db unit :=
  emit (ECookie (COOKIE_NAME (env W)) EmptyString
          {| sameSite := "lax"; secure := false |});;
  send 200 (message "logout successful").

(** The routes behind the middleware. *)
Definition post_posts (req : request) : M db unit := authenticateToken req create_post.
Definition put_posts_id (req : request) : M db unit := authenticateToken req update_post.
Definition delete_posts_id (req : request) : M db unit := authenticateToken req delete_post.
End Handlers.
End Index.

(** ** test-server.js: the copy of the application the test suites import *)

Module TestServer.
Section Handlers.
Context {db : Type} (W : World db).

(** The middleware is the same function, word for word, as in index.js. *)
Definition authenticateToken := Index.authenticateToken W.

Definition register (req : request) : M db unit :=
    let name := body req !! "name" in
    let email := body req !! "email" in
    let password := body req !! "password" in
    if negb (JS.truthy name) || negb (JS.truthy email) || negb (JS.truthy password)
    then send 400 (message "all fields are required")
    else
      try_catch
        (r ← query_user W (SelectUserByEmail (default EmptyString email));
         match data r with
         | Some _ => send 400 (message "user already exists")
         | None =>
             let hashedPassword := bcrypt_hash W (default EmptyString password) in
             r' ← query_user W (InsertUser (default EmptyString name)
                                  (default EmptyString email) (Some hashedPassword));
             match error r', data r' with
             | Some _, _ => send 500 (message "error creating user")
             | None, Some newUser =>
                 send 201 (JObj [("message", JStr "User created successfully");
                                 ("user", JObj [("id", JNum (user_id newUser));
                                                ("name", JStr (user_name newUser));
                                                ("email", JStr (user_email newUser))])])
             | None, None => throw (TypeError "id")
             end
         end)
        (fun _ => send 500 (JObj [("error", JStr "internal server error")])).

Definition update_post (req : request) : M db unit :=
    let postId := params_id req in
    let title := body req !! "title" in
    let body_ := body req !! "body" in
    if negb (JS.truthy title) || negb (JS.truthy body_)
    then send 400 (message "title and body are required")
    else
      try_catch
        (uid ← Index.req_user_id req;
         r ← query_post W (UpdatePost postId uid (default EmptyString title)
                             (default EmptyString body_));
         match error r, data r with
         | None, Some updatedPost =>
             send 200 (JObj [("updatedPost", json_of_post updatedPost)])
         | _, _ =>
             send 400 (message "Not authorized to update this post or post not found")
         end)
        (fun _ => send 500 (message "internal server error")).

Definition delete_post (req : request) : M db unit :=
    let postId := params_id req in
    try_catch
      (uid ← Index.req_user_id req;
       r ← query_post W (DeletePost postId uid true);
       match error r, data r with
       | None, Some deleteData =>
           send 200 (JObj [("message", JStr "post deleted successfully");
                           ("post", json_of_post deleteData)])
       | _, _ =>
           send 400 (message "not authorized to delete this post or post not found")
       end)
      (fun _ => send 500 (message "internal server error")).

Definition put_posts_id (req : request) : M db unit := authenticateToken req update_post.
Definition delete_posts_id (req : request) : M db unit := authenticateToken req delete_post.
End Handlers.
End TestServer.

(** ** passport-config.js: the verify callback of the Google strategy *)

Module Passport.

Record profile_name := {
    givenName : option string;
    familyName : option string
  }.

Record profile_email := {
    value : option string
  }.

(** The provider profile, as far as the callback reads it. *)
Record profile := {
    id : string;
    displayName : option string;
    name : option profile_name;
    emails : option (list profile_email)
  }.

(** The first argument of [done]: a fresh [Error], the error object of the
      store, or a caught exception. *)
Inductive js_error :=
  | Error (msg : string)
  | StoreError (e : pg_error)
  | Caught (e : exn).

(** The call [done(err, user)] that ends the callback. *)
Record done_args := Done {
    done_err : option js_error;
    done_user : option user_row
  }.

(** [profile.emails && profile.emails[0]?.value] *)
Definition email_of (p : profile) : option string :=
    match emails p with
    | Some l => match l !! 0%nat with
                | Some e => value e
                | None => None
                end
    | None => None
    end.

(** [profile.displayName ||
       profile.name?.givenName + " " + profile.name?.familyName]:
      [+] binds tighter than [||], and an undefined operand of [+] is
      converted to a string. *)
Definition name_of (p : profile) : option string :=
    JS.or (displayName p)
          (Some (JS.to_string (name p ≫= givenName) ++ " "
                 ++ JS.to_string (name p ≫= familyName))).

Section Verify.
Context {db : Type} (W : World db).

Definition verify (p : profile) : M db done_args :=
    try_catch
      (let email := email_of p in
       let name := name_of p in
       if negb (JS.truthy email)
       then mret (Done (Some (Error "No email found in Google profile")) None)
       else if negb (JS.truthy name)
       then mret (Done (Some (Error "No name found in Google profile")) None)
       else
         let email := default EmptyString email in
         let name := default EmptyString name in
         r ← query_user W (SelectUserByEmail email);
         match ok_row r with
         | Some existingUser => mret (Done None (Some existingUser))
         | None =>
             r' ← query_user W (InsertUser (JS.trim name)
                                  (JS.trim (JS.toLowerCase email)) None);
             match error r' with
             | Some createError =>
                 if String.eqb (err_code createError) "23505"
                 then
                   r'' ← query_user W (SelectUserByEmail email);
                   match ok_row r'' with
                   | Some retryUser => mret (Done None (Some retryUser))
                   | None => mret (Done (Some (StoreError createError)) None)
                   end
                 else mret (Done (Some (StoreError createError)) None)
             | None =>
                 match data r' with
                 | Some newUser => mret (Done None (Some newUser))
                 | None => throw (TypeError "email")
                 end
             end
         end)
      (fun error => mret (Done (Some (Caught error)) None)).
End Verify.
End Passport.

(** ** Concrete stores and a concrete world, to run the handlers on *)

(** The reply of [.single()] when the filter matches no row. *)
Definition no_rows : pg_error :=
  {| err_code := "PGRST116";
     err_message := "JSON object requested, multiple (or no) rows returned" |}.

(** The reply of an insert that breaks the unique constraint on the email. *)
Definition unique_violation : pg_error :=
  {| err_code := "23505";
     err_message := "duplicate key value violates unique constraint" |}.

Definition found {A} (a : A) : reply A := {| data := Some a; error := None |}.
Definition failed {A} (e : pg_error) : reply A := {| data := None; error := Some e |}.

(** A store that plays a script: the replies it will give, in order, per
    kind of query.  Past the end of a script nothing matches. *)
Module Scripted.

Record script := {
    user_replies : list (reply user_row);
    post_replies : list (reply post_row);
    list_replies : list list_reply
  }.

Definition answer_user (q : user_query) (s : script) : reply user_row * script :=
    match user_replies s with
    | r :: rest => (r, {| user_replies := rest; post_replies := post_replies s;
                          list_replies := list_replies s |})
    | [] => (failed no_rows, s)
    end.

Definition answer_post (q : post_query) (s : script) : reply post_row * script :=
    match post_replies s with
    | r :: rest => (r, {| user_replies := user_replies s; post_replies := rest;
                          list_replies := list_replies s |})
    | [] => (failed no_rows, s)
    end.

Definition answer_list (q : list_query) (s : script) : list_reply * script :=
    match list_replies s with
    | r :: rest => (r, {| user_replies := user_replies s; post_replies := post_replies s;
                          list_replies := rest |})
    | [] => ({| l_data := None; l_count := None; l_error := Some no_rows |}, s)
    end.

Definition store : Store script :=
    {| run_user := answer_user; run_post := answer_post; run_list := answer_list |}.

Definition users (l : list (reply user_row)) : script :=
    {| user_replies := l; post_replies := []; list_replies := [] |}.
Definition posts (l : list (reply post_row)) : script :=
    {| user_replies := []; post_replies := l; list_replies := [] |}.
Definition lists (l : list list_reply) : script :=
    {| user_replies := []; post_replies := []; list_replies := l |}.

End Scripted.

(** A Users table in memory: lookups compare the email exactly as the
    database does for [eq], and an insert of an email that is already there
    is refused with the unique-constraint error. *)
Module MemStore.

Definition table := list user_row.

Definition by_email (e : string) (t : table) : list user_row :=
    filter (fun u => String.eqb (user_email u) e) t.

Definition by_id (i : Z) (t : table) : list user_row :=
    filter (fun u => user_id u =? i) t.

Definition single (l : list user_row) : reply user_row :=
    match l with
    | [u] => found u
    | _ => failed no_rows
    end.

Definition next_id (t : table) : Z := 1 + fold_right Z.max 0 (user_id <$> t).

Definition answer_user (q : user_query) (t : table) : reply user_row * table :=
    match q with
    | SelectUserByEmail e => (single (by_email e t), t)
    | SelectUserById i => (single (by_id i t), t)
    | InsertUser n e p =>
        match by_email e t with
        | [] =>
            let u := {| user_id := next_id t; user_name := n; user_email := e;
                        user_password := p; user_profile_picture := None;
                        user_created_at := "now" |} in
            (found u, (t ++ [u])%list)
        | _ => (failed unique_violation, t)
        end
    end.

Definition store : Store table :=
    {| run_user := answer_user;
       run_post := fun _ t => (failed no_rows, t);
       run_list := fun _ t =>
         ({| l_data := Some []; l_count := Some 0; l_error := None |}, t) |}.

End MemStore.

(** A world for the examples: the token [good] verifies, every other one is
    malformed; a hash is its plaintext behind a marker. *)
Module Example_world.

Definition alice_claims : claims := {| claim_id := 1; claim_email := "alice@example.com" |}.

Definition world {db} (st : Store db) : World db :=
    {| store := st;
       env := {| COOKIE_NAME := Some "token"; NODE_ENV := Some "test" |};
       jwt_verify := fun t => if String.eqb t "good" then inl alice_claims
                              else inr "jwt malformed";
       jwt_sign := fun _ => "good";
       bcrypt_hash := fun p => "$2b$10$" ++ p;
       bcrypt_compare := fun p h => String.eqb h ("$2b$10$" ++ p) |}.

Definition request0 : request :=
    {| headers := ∅; cookie_jar := Some []; body := ∅; query := ∅;
       params_id := "1"; user := None |}.

Definition with_headers (h : gmap string string) (r : request) : request :=
    {| headers := h; cookie_jar := cookie_jar r; body := body r; query := query r;
       params_id := params_id r; user := user r |}.
Definition with_cookies (c : gmap string string) (r : request) : request :=
    {| headers := headers r; cookie_jar := Some (map_to_list c); body := body r;
       query := query r;
       params_id := params_id r; user := user r |}.
(** The properties of [req.cookies] in the order [Object.keys] lists them:
    the order of the Cookie header, for names that are not array
    indices. *)
Definition with_cookie_list (c : list (string * string)) (r : request) : request :=
    {| headers := headers r; cookie_jar := Some c; body := body r;
       query := query r; params_id := params_id r; user := user r |}.
Definition with_body (b : gmap string string) (r : request) : request :=
    {| headers := headers r; cookie_jar := cookie_jar r; body := b; query := query r;
       params_id := params_id r; user := user r |}.
Definition with_query (q : gmap string string) (r : request) : request :=
    {| headers := headers r; cookie_jar := cookie_jar r; body := body r; query := q;
       params_id := params_id r; user := user r |}.
Definition with_id (i : string) (r : request) : request :=
    {| headers := headers r; cookie_jar := cookie_jar r; body := body r; query := query r;
       params_id := i; user := user r |}.

Definition bearer (t : string) : gmap string string :=
    {[ "authorization" := "Bearer " ++ t ]}.

End Example_world.

(** ** Notions and inputs the properties are stated with *)

(** No call of [res.json] in the trace has a [password] key in its body,
    at any depth. *)
Definition no_password (l : list event) : bool :=
  forallb (fun r => negb (has_key "password" (snd r))) (json_calls l).

(** The supplied password is the one of the account: the account has a hash
    and the comparison with it succeeds. *)
Definition password_is_right {db} (W : World db) (password : string) (u : user_row) : bool :=
  match user_password u with
  | Some h => bcrypt_compare W password h
  | None => false
  end.

Module Login_example.

(** An account created by the Google sign-in: no password. *)
Definition carol : user_row :=
    {| user_id := 7; user_name := "Carol"; user_email := "carol@example.com";
       user_password := None; user_profile_picture := None;
       user_created_at := "2025-01-01" |}.

(** An account created by the registration form. *)
Definition dave : user_row :=
    {| user_id := 8; user_name := "Dave"; user_email := "dave@example.com";
       user_password := Some "$2b$10$secret"; user_profile_picture := None;
       user_created_at := "2025-01-02" |}.

Definition table : MemStore.table := [carol; dave].

Definition W : World MemStore.table := Example_world.world MemStore.store.

Definition attempt (email password : string) : request :=
    Example_world.with_body {[ "email" := email; "password" := password ]}
      Example_world.request0.

End Login_example.

Module Oauth_example.

Definition grace : Passport.profile :=
    {| Passport.id := "g-17"; Passport.displayName := Some "Grace";
       Passport.name := None;
       Passport.emails := Some [{| Passport.value := Some "grace@example.com" |}] |}.

Definition grace_row : user_row :=
    {| user_id := 17; user_name := "Grace"; user_email := "grace@example.com";
       user_password := None; user_profile_picture := None;
       user_created_at := "2025-02-01" |}.

Definition timeout : pg_error :=
    {| err_code := "57014"; err_message := "canceling statement due to statement timeout" |}.

(** A profile whose email is not in lower case. *)
Definition frank : Passport.profile :=
    {| Passport.id := "g-42"; Passport.displayName := Some "Frank";
       Passport.name := None;
       Passport.emails := Some [{| Passport.value := Some "Frank@Example.com" |}] |}.

Definition frank_row : user_row :=
    {| user_id := 1; user_name := "Frank"; user_email := "frank@example.com";
       user_password := None; user_profile_picture := None; user_created_at := "now" |}.

(** A profile with an email and no name at all. *)
Definition nameless : Passport.profile :=
    {| Passport.id := "g-99"; Passport.displayName := None; Passport.name := None;
       Passport.emails := Some [{| Passport.value := Some "erin@example.com" |}] |}.

Definition nameless_row : user_row :=
    {| user_id := 1; user_name := "undefined undefined"; user_email := "erin@example.com";
       user_password := None; user_profile_picture := None; user_created_at := "now" |}.

End Oauth_example.

(** The queries in a trace, in order. *)
Definition is_query (e : event) : bool :=
  match e with
  | EUserQuery _ | EPostQuery _ | EListQuery _ => true
  | _ => false
  end.

Definition queries (l : list event) : list event := List.filter is_query l.

(** A query that reads and does not write. *)
Definition is_select (e : event) : bool :=
  match e with
  | EUserQuery (SelectUserByEmail _) | EUserQuery (SelectUserById _) | EListQuery _ => true
  | _ => false
  end.

Definition is_cookie (e : event) : bool :=
  match e with
  | ECookie _ _ _ => true
  | _ => false
  end.

Definition is_verify (e : event) : bool :=
  match e with
  | EVerify _ => true
  | _ => false
  end.

(** The handler returns normally and has called [res.json] exactly once,
    with the response the client receives. *)
Definition answers_once {db} (m : M db unit) (d : db) : Prop :=
  result m d = Returned tt
  /\ exists st b, json_calls (trace m d) = [(st, b)]
                  /\ response_of (trace m d) = Some (st, b).

(** The status of the response is 200. *)
Definition answered_ok (l : list event) : bool :=
  match response_of l with
  | Some (st, _) => st =? 200
  | None => false
  end.

(** An insert into Users that carries a password. *)
Definition inserts_password (e : event) : bool :=
  match e with
  | EUserQuery (InsertUser _ _ (Some _)) => true
  | _ => false
  end.

Definition is_insert (e : event) : bool :=
  match e with
  | EUserQuery (InsertUser _ _ _) => true
  | _ => false
  end.

(** [done] was called with an error and no user, or with a user and no
    error. *)
Definition done_is_exclusive (o : outcome Passport.done_args) : bool :=
  match o with
  | Returned (Passport.Done (Some _) None) | Returned (Passport.Done None (Some _)) => true
  | _ => false
  end.

(** [email.toLowerCase().trim()], the form under which the callback stores
    an email. *)
Definition stored_form (email : string) : string := JS.trim (JS.toLowerCase email).

Definition is_upper (c : ascii) : bool :=
  let n := nat_of_ascii c in ((65 <=? n) && (n <=? 90))%nat.

Fixpoint string_forall (f : ascii -> bool) (s : string) : bool :=
  match s with
  | EmptyString => true
  | String c r => f c && string_forall f r
  end.

Definition first_char (s : string) : option ascii :=
  match s with
  | String c _ => Some c
  | EmptyString => None
  end.

Fixpoint last_char (s : string) : option ascii :=
  match s with
  | EmptyString => None
  | String c EmptyString => Some c
  | String _ r => last_char r
  end.

Definition not_space (o : option ascii) : bool :=
  match o with
  | Some c => negb (JS.is_space c)
  | None => true
  end.

Module Session_example.

(** An account whose id and email are those of the token [good]. *)
Definition alice : user_row :=
  {| user_id := 1; user_name := "Alice"; user_email := "alice@example.com";
     user_password := Some "$2b$10$wonderland"; user_profile_picture := None;
     user_created_at := "2025-01-03" |}.

Definition table : MemStore.table := [alice].

Definition W : World MemStore.table := Example_world.world MemStore.store.

Definition with_cookie (v : string) : request :=
  Example_world.with_cookies {[ "token" := v ]} Example_world.request0.

Definition authed (b : gmap string string) : request :=
  Example_world.with_body b
    (Example_world.with_headers (Example_world.bearer "good") Example_world.request0).

End Session_example.

(** * Properties *)

(** ** The JavaScript primitives on examples *)

Example split_bearer : JS.split " " "Bearer abc.def" = ["Bearer"; "abc.def"].
Proof. reflexivity. Qed.

Example split_empty : JS.split " " EmptyString = [EmptyString].
Proof. reflexivity. Qed.

Example trim_example : JS.trim "  Ada Lovelace  " = "Ada Lovelace".
Proof. reflexivity. Qed.

Example lower_example : JS.toLowerCase "Foo@Example.COM" = "foo@example.com".
Proof. reflexivity. Qed.

Example parseInt_examples :
  JS.parseInt (Some "1000") = 1000 /\ JS.parseInt (Some " -7px") = -7
  /\ JS.parseInt (Some "0x1f") = 31 /\ JS.parseInt (Some "abc") = JS.NaN
  /\ JS.parseInt None = JS.NaN /\ JS.parseInt (Some "0") = 0
  /\ JS.parseInt (Some "9007199254740993") = 9007199254740992.
Proof. repeat split; vm_compute; reflexivity. Qed.

(** ** Running the monad *)

Lemma run_bind {db A B} (m : M db A) (k : A -> M db B) (s : state db) :
  (m ≫= k) s = match m s with
               | (Returned a, s') => k a s'
               | (Thrown e, s') => (Thrown e, s')
               end.
Proof. reflexivity. Qed.

Lemma truthy_Some (v : option string) (s : string) :
  v = Some s -> s <> EmptyString -> JS.truthy v = true.
Proof.
  intros -> Hs. simpl. destruct s; [congruence | reflexivity].
Qed.

Lemma truthy_inv (v : option string) :
  JS.truthy v = true -> exists s, v = Some s /\ s <> EmptyString.
Proof.
  destruct v as [s|]; simpl; [|discriminate].
  destruct s; simpl; [discriminate|]. intros _. eexists. split; [reflexivity | discriminate].
Qed.

(** ** The middleware *)

(** Without an Authorization header the header token is the empty string,
    which is falsy. *)
Lemma headerToken_absent (req : request) :
  headers req !! "authorization" = None -> Index.headerToken req = Some EmptyString.
Proof.
  intros H. unfold Index.headerToken, Index.authHeader. rewrite H. reflexivity.
Qed.

Lemma token_absent {db} (W : World db) (req : request) :
  headers req !! "authorization" = None -> cookie_token W req = None ->
  Index.token W req = None.
Proof.
  intros Hh Hc. unfold Index.token. rewrite (headerToken_absent _ Hh), Hc. reflexivity.
Qed.

(** What the middleware does once a token has been extracted. *)
Lemma authenticateToken_with_token {db} (W : World db) (req : request)
    (next : request -> M db unit) (t : string) :
  Index.token W req = Some t -> t <> EmptyString ->
  Index.authenticateToken W req next =
    (emit (EVerify t);;
     match jwt_verify W t with
     | inl decoded => next (with_user req decoded)
     | inr _ => send 401 (message "Invalid token")
     end).
Proof.
  intros Ht Hne. unfold Index.authenticateToken.
  rewrite (truthy_Some _ _ Ht Hne), Ht. reflexivity.
Qed.

(** C2. On a guarded route, a request with neither an Authorization header
    nor the cookie is answered 401 "Invalid or no token found"; a request
    whose token fails verification is answered 401 "Invalid token"; the two
    bodies differ.  In both cases nothing else happens: the route handler
    does not run. *)
Theorem auth_rejection_messages {db} (W : World db) (req : request)
    (next : request -> M db unit) (d : db) :
  (headers req !! "authorization" = None -> cookie_token W req = None ->
   trace (Index.authenticateToken W req next) d
   = [ESend 401 (message "Invalid or no token found")])
  /\ (forall t msg,
        Index.token W req = Some t -> t <> EmptyString -> jwt_verify W t = inr msg ->
        trace (Index.authenticateToken W req next) d
        = [EVerify t; ESend 401 (message "Invalid token")])
  /\ message "Invalid or no token found" <> message "Invalid token".
Proof.
  split; [|split].
  - intros Hh Hc. unfold Index.authenticateToken.
    rewrite (token_absent W req Hh Hc). reflexivity.
  - intros t msg Ht Hne Hv.
    rewrite (authenticateToken_with_token W req next t Ht Hne), Hv. reflexivity.
  - discriminate.
Qed.

Lemma auth_rejection_messages_witness :
  let W := Example_world.world Scripted.store in
  let anonymous := Example_world.request0 in
  let forged := Example_world.with_headers (Example_world.bearer "forged") anonymous in
  trace (Index.post_posts W anonymous) (Scripted.posts [])
  = [ESend 401 (message "Invalid or no token found")]
  /\ trace (Index.post_posts W forged) (Scripted.posts [])
     = [EVerify "forged"; ESend 401 (message "Invalid token")].
Proof.
  intros W anonymous forged. split.
  - apply (auth_rejection_messages W anonymous (Index.create_post W) (Scripted.posts []));
      reflexivity.
  - apply (proj1 (proj2 (auth_rejection_messages W forged (Index.create_post W)
                           (Scripted.posts []))) "forged" "jwt malformed");
      [vm_compute; reflexivity | discriminate | reflexivity].
Defined.

(** A header of the form [Bearer <token>], the token without a space, yields
    that token. *)
Lemma split_no_space (s : string) :
  (forall c, In c (list_ascii_of_string s) -> c <> " "%char) ->
  JS.split " " s = [s].
Proof.
  induction s as [|c s IH]; intros H; [reflexivity|].
  simpl. destruct (Ascii.eqb_spec c " ") as [->|_].
  - exfalso. apply (H " "%char); [left; reflexivity | reflexivity].
  - rewrite IH; [reflexivity|]. intros c' Hc'. apply H. right. exact Hc'.
Qed.

Lemma headerToken_bearer (req : request) (t : string) :
  headers req !! "authorization" = Some ("Bearer " ++ t) ->
  (forall c, In c (list_ascii_of_string t) -> c <> " "%char) ->
  Index.headerToken req = Some t.
Proof.
  intros Hh Ht. unfold Index.headerToken, Index.authHeader. rewrite Hh.
  cbn [JS.or JS.truthy String.eqb append negb default]. simpl.
  change (JS.split " " t !! 0%nat = Some t).
  rewrite (split_no_space t Ht). reflexivity.
Qed.

(** C8. When the Authorization header carries a token and the cookie carries
    one too, the token extracted is the header's, and it is the one given to
    [jwt.verify]: the middleware verifies it and either goes on with its
    payload or answers 401. *)
Theorem header_token_takes_precedence {db} (W : World db) (req : request)
    (next : request -> M db unit) (h c : string) :
  Index.headerToken req = Some h -> h <> EmptyString ->
  cookie_token W req = Some c ->
  Index.token W req = Some h
  /\ Index.authenticateToken W req next =
       (emit (EVerify h);;
        match jwt_verify W h with
        | inl decoded => next (with_user req decoded)
        | inr _ => send 401 (message "Invalid token")
        end)
  /\ (forall d msg, jwt_verify W h = inr msg ->
        trace (Index.authenticateToken W req next) d
        = [EVerify h; ESend 401 (message "Invalid token")]).
Proof.
  intros Hh Hne Hc.
  assert (Ht : Index.token W req = Some h).
  { unfold Index.token, JS.or. rewrite (truthy_Some _ _ Hh Hne). exact Hh. }
  split; [exact Ht|]. split.
  - apply authenticateToken_with_token; assumption.
  - intros d msg Hv.
    rewrite (authenticateToken_with_token W req next h Ht Hne), Hv. reflexivity.
Qed.

Lemma header_token_takes_precedence_witness :
  let W := Example_world.world Scripted.store in
  let req := Example_world.with_cookies {[ "token" := "good" ]}
               (Example_world.with_headers (Example_world.bearer "forged")
                  Example_world.request0) in
  cookie_token W req = Some "good"
  /\ Index.token W req = Some "forged"
  /\ trace (Index.post_posts W req) (Scripted.posts [])
     = [EVerify "forged"; ESend 401 (message "Invalid token")].
Proof.
  intros W req.
  destruct (header_token_takes_precedence W req (Index.create_post W) "forged" "good")
    as (Ht & _ & Hbad); [vm_compute; reflexivity | discriminate | vm_compute; reflexivity |].
  split; [vm_compute; reflexivity|]. split; [exact Ht|].
  apply (Hbad (Scripted.posts []) "jwt malformed"). reflexivity.
Defined.

(** ** GET /posts *)

Lemma ceil_div_pos (a b : Z) :
  0 < b -> (JS.ceil_div a b - 1) * b < a <= JS.ceil_div a b * b.
Proof.
  intros Hb. unfold JS.ceil_div.
  pose proof (Z.div_mod (- a) b ltac:(lia)) as E.
  pose proof (Z.mod_pos_bound (- a) b Hb) as B.
  nia.
Qed.

Lemma ceil_div_neg (a b : Z) :
  b < 0 -> JS.ceil_div a b * b <= a < (JS.ceil_div a b - 1) * b.
Proof.
  intros Hb. unfold JS.ceil_div.
  pose proof (Z.div_mod (- a) b ltac:(lia)) as E.
  pose proof (Z.mod_neg_bound (- a) b Hb) as B.
  nia.
Qed.

(** *** Numbers below 2^53 are computed with exactly *)

Lemma round_exact (z : Z) : Z.abs z < 2 ^ 53 -> JS.round z = JS.Fin z.
Proof.
  intros H. unfold JS.round.
  destruct (Z.ltb_spec (Z.abs z) (2 ^ 53)) as [_|Hge]; [reflexivity | lia].
Qed.

Lemma add_exact (x y : Z) :
  Z.abs (x + y) < 2 ^ 53 -> JS.add (JS.Fin x) (JS.Fin y) = JS.Fin (x + y).
Proof. intros H. apply round_exact, H. Qed.

Lemma sub_exact (x y : Z) :
  Z.abs (x - y) < 2 ^ 53 -> JS.sub (JS.Fin x) (JS.Fin y) = JS.Fin (x - y).
Proof. intros H. unfold JS.sub, JS.neg. cbn [JS.add]. apply round_exact. exact H. Qed.

Lemma mul_exact (x y : Z) :
  Z.abs (x * y) < 2 ^ 53 -> JS.mul (JS.Fin x) (JS.Fin y) = JS.Fin (x * y).
Proof. intros H. apply round_exact, H. Qed.

(** Rounding the quotient [n * P / d] to the nearest integer, when [d] is
    below [2 * P], does not cross a multiple of [P]. *)
Lemma nearest_stays_between (n d P : Z) :
  0 < n -> 0 < d -> 0 < P -> d < 2 * P ->
  let q := (n * P) / d in
  let r := (n * P) mod d in
  let m := if (d <? 2 * r) || ((2 * r =? d) && Z.odd q) then q + 1 else q in
  (n mod d = 0 -> m = (n / d) * P)
  /\ (n mod d <> 0 -> (n / d) * P < m < (n / d + 1) * P).
Proof.
  intros Hn Hd HP HdP q r m.
  pose proof (Z.div_mod n d ltac:(lia)) as En.
  pose proof (Z.mod_pos_bound n d Hd) as Bn.
  pose proof (Z.div_mod (n * P) d ltac:(lia)) as EN.
  pose proof (Z.mod_pos_bound (n * P) d Hd) as BN.
  fold q in EN. fold r in EN, BN.
  set (k := n / d) in *. set (r1 := n mod d) in *.
  assert (Hq : q = k * P + (r1 * P) / d).
  { subst q. rewrite En. replace ((d * k + r1) * P) with (k * P * d + r1 * P) by ring.
    rewrite Z.div_add_l by lia. reflexivity. }
  assert (Hr : r = (r1 * P) mod d).
  { subst r. rewrite En. replace ((d * k + r1) * P) with (r1 * P + k * P * d) by ring.
    apply Z.mod_add. lia. }
  pose proof (Z.div_mod (r1 * P) d ltac:(lia)) as Et.
  pose proof (Z.mod_pos_bound (r1 * P) d Hd) as Bt.
  rewrite <- Hr in Et, Bt.
  set (qt := (r1 * P) / d) in *.
  split.
  - intros H0.
    assert (qt = 0 /\ r = 0) as [Hqt0 Hr0].
    { assert (d * qt + r = 0) by (rewrite <- Et, H0; ring).
      assert (0 <= qt) by (subst qt; apply Z.div_pos; nia). nia. }
    subst m. 
    destruct (Z.ltb_spec d (2 * r)); [lia|].
    destruct (Z.eqb_spec (2 * r) d); [lia|]. cbn [orb andb]. lia.
  - intros Hne.
    assert (H1 : 1 <= r1) by lia.
    assert (Hqt0 : 0 <= qt) by (subst qt; apply Z.div_pos; nia).
    assert (Hqt : qt <= P - 1) by nia.
    subst m.
    destruct (Z.ltb_spec d (2 * r)) as [Hup|Hno]; cbn [orb].
    + split; [nia|].
      assert (qt <= P - 2) by nia. lia.
    + destruct (Z.eqb_spec (2 * r) d) as [Heq|Hneq]; cbn [andb].
      * destruct (Z.odd q).
        -- split; [nia|]. assert (qt <= P - 2) by nia. lia.
        -- split; [|lia]. assert (1 <= qt) by nia. lia.
      * split; [|lia]. assert (1 <= qt) by nia. lia.
Qed.

Lemma scale_facts : 2 ^ 1024 < JS.scale /\ JS.scale = 2 ^ 1074 /\ 2 ^ 53 * JS.scale = 2 ^ 1127.
Proof. repeat split; vm_compute; reflexivity. Qed.

(** For a numerator below 2^53, the quotient is rounded on a grid finer
    than half the divisor. *)
Lemma quotient_grid (n d : Z) :
  0 < n < 2 ^ 53 -> 0 < d < 2 ^ 1024 ->
  exists P, 0 < P /\ d < 2 * P
            /\ JS.quotient n d
               = (let q := (n * P) / d in
                  let r := (n * P) mod d in
                  if (d <? 2 * r) || ((2 * r =? d) && Z.odd q) then q + 1 else q,
                  JS.scale / P)
            /\ JS.scale = P * (JS.scale / P).
Proof.
  intros Hn Hd. destruct scale_facts as (HT1 & HT2 & HT3).
  unfold JS.quotient.
  set (T := JS.scale) in *. set (N := n * T).
  set (g := Z.max 0 (Z.log2 (N / d) - 52)).
  assert (HTpos : 0 < T) by (pose proof (Z.pow_pos_nonneg 2 1024); lia).
  assert (HQ1 : 1 <= N / d).
  { apply Z.div_le_lower_bound; [lia|]. subst N. nia. }
  assert (HQN : N / d <= N).
  { pose proof (Z.mul_div_le N d ltac:(lia)). nia. }
  assert (HN : N < 2 ^ 1127) by (rewrite <- HT3; subst N; nia).
  assert (Hlog : Z.log2 (N / d) < 1127).
  { apply Z.log2_lt_pow2; lia. }
  assert (Hg : 0 <= g <= 1074) by (subst g; lia).
  assert (HG : 0 < 2 ^ g) by (apply Z.pow_pos_nonneg; lia).
  assert (HTPG : T = 2 ^ (1074 - g) * 2 ^ g).
  { rewrite <- Z.pow_add_r by lia. rewrite HT2. f_equal. lia. }
  assert (HP : 0 < 2 ^ (1074 - g)) by (apply Z.pow_pos_nonneg; lia).
  assert (HdG : d * 2 ^ g < 2 * T).
  { destruct (Z.max_spec 0 (Z.log2 (N / d) - 52)) as [[Hlt Hmax]|[Hle Hmax]];
      fold g in Hmax.
    - pose proof (Z.log2_spec (N / d) ltac:(lia)) as [Hlo _].
      replace (Z.log2 (N / d)) with (g + 52) in Hlo by lia.
      rewrite Z.pow_add_r in Hlo by lia.
      pose proof (Z.mul_div_le N d ltac:(lia)) as Hmd.
      assert (H52 : 2 ^ 53 = 2 * 2 ^ 52) by reflexivity.
      assert (0 < 2 ^ 52) by reflexivity.
      assert (N < 2 * 2 ^ 52 * T) by (subst N; nia).
      nia.
    - rewrite Hmax. change (2 ^ 0) with 1. lia. }
  exists (2 ^ (1074 - g)).
  assert (HTdiv : T / 2 ^ (1074 - g) = 2 ^ g).
  { rewrite HTPG. rewrite Z.mul_comm. apply Z.div_mul. lia. }
  split; [exact HP|]. split; [nia|]. split.
  - rewrite HTdiv.
    assert (EN : N = n * 2 ^ (1074 - g) * 2 ^ g) by (subst N; rewrite HTPG; ring).
    rewrite EN.
    rewrite Z.div_mul_cancel_r by lia.
    rewrite Z.mul_mod_distr_r by lia.
    set (q := (n * 2 ^ (1074 - g)) / d). set (r := (n * 2 ^ (1074 - g)) mod d).
    f_equal.
    assert (E1 : (d * 2 ^ g <? 2 * (r * 2 ^ g)) = (d <? 2 * r)).
    { destruct (Z.ltb_spec (d * 2 ^ g) (2 * (r * 2 ^ g))), (Z.ltb_spec d (2 * r));
        try reflexivity; nia. }
    assert (E2 : (2 * (r * 2 ^ g) =? d * 2 ^ g) = (2 * r =? d)).
    { destruct (Z.eqb_spec (2 * (r * 2 ^ g)) (d * 2 ^ g)), (Z.eqb_spec (2 * r) d);
        try reflexivity; nia. }
    rewrite E1, E2. reflexivity.
  - rewrite HTdiv. exact HTPG.
Qed.

Lemma div_between (m P k : Z) : 0 < P -> k * P <= m < (k + 1) * P -> m / P = k.
Proof.
  intros HP H. symmetry. apply (Z.div_unique_pos m P k (m - k * P)); lia.
Qed.

(** While the count is below 2^53, [Math.ceil(count / limit)] is the exact
    ceiling of the quotient. *)
Lemma ceil_quot_exact (x y : Z) :
  Z.abs x < 2 ^ 53 -> y <> 0 -> Z.abs y < 2 ^ 1024 ->
  JS.ceil_quot (JS.Fin x) (JS.Fin y) = JS.Fin (JS.ceil_div x y).
Proof.
  intros Hx Hy0 Hy. unfold JS.ceil_quot, JS.ceil_div.
  destruct (Z.eqb_spec y 0) as [|_]; [contradiction|].
  destruct (Z.eqb_spec x 0) as [->|Hx0]; [reflexivity|].
  set (n := Z.abs x). set (d := Z.abs y).
  destruct (quotient_grid n d ltac:(subst n; lia) ltac:(subst d; lia))
    as (P & HP & HdP & Hq & HT).
  rewrite Hq.
  destruct (nearest_stays_between n d P ltac:(subst n; lia) ltac:(subst d; lia) HP HdP)
    as [Hdiv Hndiv].
  cbv beta iota zeta in Hdiv, Hndiv |- *.
  set (q := (n * P) / d) in *. set (r := (n * P) mod d) in *.
  set (m := if (d <? 2 * r) || ((2 * r =? d) && Z.odd q) then q + 1 else q) in *.
  set (G := JS.scale / P) in *.
  destruct scale_facts as (HT1 & _ & _).
  assert (HG : 0 < G) by (pose proof (Z.pow_pos_nonneg 2 1024); nia).
  pose proof (Z.div_mod n d ltac:(subst d; lia)) as En.
  pose proof (Z.mod_pos_bound n d ltac:(subst d; lia)) as Bn.
  set (k := n / d) in *.
  assert (Hk : 0 <= k < 2 ^ 53).
  { split; [apply Z.div_pos; subst n d; lia|].
    assert (k <= n) by (subst d; nia). subst n. lia. }
  assert (Hm : k * P <= m <= (k + 1) * P).
  { destruct (Z.eq_dec (n mod d) 0) as [E|E]; [rewrite (Hdiv E) | pose proof (Hndiv E)]; nia. }
  assert (Hbig : 2 ^ 53 < 2 ^ 1024) by reflexivity.
  destruct (Z.leb_spec (2 ^ 1024 * JS.scale) (m * G)) as [Hov|_].
  { exfalso. rewrite HT in Hov. nia. }
  assert (Ev : (m * G) / JS.scale = m / P).
  { rewrite HT at 1. apply Z.div_mul_cancel_r; lia. }
  assert (Env : (- (m * G)) / JS.scale = (- m) / P).
  { rewrite HT at 1. replace (- (m * G)) with ((- m) * G) by ring.
    apply Z.div_mul_cancel_r; lia. }
  rewrite Ev, Env.
  assert (Hfloor : m / P = k).
  { destruct (Z.eq_dec (n mod d) 0) as [E|E].
    - rewrite (Hdiv E). apply Z.div_mul. lia.
    - apply div_between; [lia|]. pose proof (Hndiv E). lia. }
  assert (Hceil : - ((- m) / P) = if Z.eq_dec (n mod d) 0 then k else k + 1).
  { destruct (Z.eq_dec (n mod d) 0) as [E|E].
    - rewrite (Hdiv E). replace (- (k * P)) with ((- k) * P) by ring.
      rewrite Z.div_mul by lia. lia.
    - pose proof (Hndiv E).
      rewrite (div_between (- m) P (- (k + 1))); [lia | lia | lia]. }
  rewrite Hfloor, Hceil.
  assert (Hexact : (- x) / y
                   = if xorb (x <? 0) (y <? 0) then k
                     else - (if Z.eq_dec (n mod d) 0 then k else k + 1)).
  { destruct (Z.ltb_spec x 0), (Z.ltb_spec y 0); cbn [xorb].
    - (* x < 0, y < 0 *)
      replace (- x) with n by (subst n; lia). replace y with (- d) by (subst d; lia).
      destruct (Z.eq_dec (n mod d) 0) as [E|E].
      + rewrite Z.div_opp_r_z by (subst d; lia || exact E). lia.
      + rewrite Z.div_opp_r_nz by (subst d; lia || exact E). lia.
    - replace (- x) with n by (subst n; lia). replace y with d by (subst d; lia).
      reflexivity.
    - replace (- x) with (- n) by (subst n; lia). replace y with (- d) by (subst d; lia).
      rewrite Z.div_opp_opp by (subst d; lia). reflexivity.
    - replace (- x) with (- n) by (subst n; lia). replace y with d by (subst d; lia).
      destruct (Z.eq_dec (n mod d) 0) as [E|E].
      + rewrite Z.div_opp_l_z by (subst d; lia || exact E). lia.
      + rewrite Z.div_opp_l_nz by (subst d; lia || exact E). lia. }
  rewrite Hexact.
  destruct (xorb (x <? 0) (y <? 0)); f_equal; lia.
Qed.

Lemma round_bounded (z r : Z) : JS.round z = JS.Fin r -> Z.abs r < 2 ^ 1024.
Proof.
  unfold JS.round. destruct (Z.ltb_spec (Z.abs z) (2 ^ 53)) as [Hlt|Hge].
  - intros [= <-]. assert (2 ^ 53 < 2 ^ 1024) by reflexivity. lia.
  - cbv zeta.
    set (n := Z.abs z) in *. set (k := Z.log2 n - 52).
    set (q := n / 2 ^ k). set (r' := n mod 2 ^ k).
    set (q' := if (2 ^ (k - 1) <? r') || ((r' =? 2 ^ (k - 1)) && Z.odd q)
               then q + 1 else q).
    assert (Hk : 1 <= k).
    { assert (53 <= Z.log2 n); [|lia].
      change 53 with (Z.log2 (2 ^ 53)). apply Z.log2_le_mono. exact Hge. }
    assert (Hpow : 0 < 2 ^ k) by (apply Z.pow_pos_nonneg; lia).
    assert (Hq : 0 <= q) by (subst q; apply Z.div_pos; lia).
    assert (Hq' : 0 <= q') by (subst q'; destruct (_ || _); lia).
    destruct (Z.leb_spec (2 ^ 1024) (q' * 2 ^ k)) as [|Hm]; [discriminate|].
    intros [= <-]. destruct z; cbn [Z.sgn]; nia.
Qed.

Lemma parseInt_bounded (v : option string) (z : Z) :
  JS.parseInt v = JS.Fin z -> Z.abs z < 2 ^ 1024.
Proof.
  assert (H : forall o, JS.number_of o = JS.Fin z -> Z.abs z < 2 ^ 1024).
  { intros [w|]; [apply round_bounded | discriminate]. }
  unfold JS.parseInt.
  repeat match goal with
         | |- context [match ?x with _ => _ end] => destruct x
         end; apply H.
Qed.

Lemma page_of_clamped (req : request) :
  Index.page_of req
  = match JS.parseInt (query req !! "page") with
    | JS.Fin z => JS.Fin (Z.max 1 z)
    | JS.Inf false => JS.Inf false
    | _ => JS.Fin 1
    end.
Proof.
  unfold Index.page_of, JS.or_num.
  destruct (JS.parseInt (query req !! "page")) as [|[]|z]; try reflexivity.
  cbn [JS.truthy_num]. destruct (Z.eqb_spec z 0) as [->|Hz]; [reflexivity|].
  cbn [negb JS.lt]. destruct (Z.ltb_spec z 1); f_equal; lia.
Qed.

Lemma limit_of_clamped (req : request) :
  Index.limit_of req
  = match JS.parseInt (query req !! "limit") with
    | JS.Fin 0 | JS.NaN => JS.Fin 10
    | JS.Fin z => JS.Fin (Z.min z 100)
    | JS.Inf false => JS.Fin 100
    | JS.Inf true => JS.Inf true
    end.
Proof.
  unfold Index.limit_of, JS.or_num, JS.min.
  destruct (JS.parseInt (query req !! "limit")) as [|[]|z]; try reflexivity.
  cbn [JS.truthy_num JS.lt]. destruct z as [|z|z]; [reflexivity| |].
  - cbn [Z.eqb negb]. destruct (Z.ltb_spec 100 (Z.pos z)); f_equal; lia.
  - cbn [Z.eqb negb]. destruct (Z.ltb_spec 100 (Z.neg z)); f_equal; lia.
Qed.

(** The limit is 100 at most, never 0, and a double. *)
Lemma limit_of_finite (req : request) (l : Z) :
  Index.limit_of req = JS.Fin l -> l <= 100 /\ l <> 0 /\ Z.abs l < 2 ^ 1024.
Proof.
  rewrite limit_of_clamped.
  assert (2 ^ 53 < 2 ^ 1024) by reflexivity.
  destruct (JS.parseInt (query req !! "limit")) as [|[]|z] eqn:E; try discriminate.
  - intros [= <-]. lia.
  - intros [= <-]. lia.
  - pose proof (parseInt_bounded _ _ E).
    destruct z as [|z|z]; intros [= <-]; lia.
Qed.


Lemma page_of_at_least_one (req : request) (p : Z) :
  Index.page_of req = JS.Fin p -> 1 <= p.
Proof.
  rewrite page_of_clamped.
  destruct (JS.parseInt (query req !! "page")) as [|[]|z]; intros [= <-]; lia.
Qed.

(** The range, while nothing reaches 2^53. *)
Lemma range_exact (req : request) (p l : Z) :
  Index.page_of req = JS.Fin p -> Index.limit_of req = JS.Fin l ->
  Z.abs ((p - 1) * l) + Z.abs l + 1 < 2 ^ 53 ->
  lq_start (Index.posts_query req) = JS.Fin ((p - 1) * l)
  /\ lq_end (Index.posts_query req) = JS.Fin ((p - 1) * l + l - 1).
Proof.
  intros Hp Hl Hsafe.
  destruct (limit_of_finite req l Hl) as (_ & Hl0 & _).
  pose proof (page_of_at_least_one req p Hp) as Hp1.
  assert (Hstart : Index.start_of req = JS.Fin ((p - 1) * l)).
  { unfold Index.start_of. rewrite Hp, Hl.
    rewrite sub_exact by nia. apply mul_exact. lia. }
  unfold Index.posts_query. cbn [lq_start lq_end]. split; [exact Hstart|].
  unfold Index.end_of. rewrite Hstart, Hl.
  rewrite add_exact by lia. apply sub_exact. lia.
Qed.

Lemma count_exact (c : Z) : Z.abs c < 2 ^ 53 -> JS.count_or_zero (Some c) = JS.Fin c.
Proof.
  intros H. unfold JS.count_or_zero, JS.or_num. rewrite (round_exact c H).
  cbn [JS.truthy_num]. destruct (Z.eqb_spec c 0) as [->|_]; reflexivity.
Qed.



(** [page=0] is served as [page=1], and [limit=1000] as [limit=100]. *)
Example page_zero_is_page_one :
  let at_page p := Example_world.with_query {[ "page" := p ]} Example_world.request0 in
  Index.posts_query (at_page "0") = Index.posts_query (at_page "1")
  /\ Index.page_of (at_page "0") = 1.
Proof. split; vm_compute; reflexivity. Qed.

Example limit_thousand_is_hundred :
  let req := Example_world.with_query {[ "limit" := "1000" ]} Example_world.request0 in
  Index.limit_of req = 100
  /\ Index.posts_query req = {| lq_pattern := None; lq_start := 0; lq_end := 99 |}.
Proof. split; vm_compute; reflexivity. Qed.

Example limit_default_is_ten : Index.limit_of Example_world.request0 = 10.
Proof. vm_compute; reflexivity. Qed.

(** Beyond 2^53 the numbers are rounded: the page 2^53 + 1 is read as 2^53
    and the range asked of the store has 17 places for a limit of 10; a
    range that reaches 2^53 has 11; a page of 309 digits is [Infinity],
    which is written [null]. *)
Example huge_pages_are_rounded :
  let at_page p := Example_world.with_query {[ "page" := p ]} Example_world.request0 in
  Index.page_of (at_page "9007199254740993") = 9007199254740992
  /\ Index.posts_query (at_page "9007199254740993")
     = {| lq_pattern := None; lq_start := 90071992547409904;
          lq_end := 90071992547409920 |}
  /\ Index.posts_query (at_page "900719925474100")
     = {| lq_pattern := None; lq_start := 9007199254740990;
          lq_end := 9007199254741000 |}
  /\ Index.page_of (at_page (String.concat EmptyString (repeat "9" 309))) = JS.Inf false
  /\ json_of_number (JS.Inf false) = JNull.
Proof. repeat split; vm_compute; reflexivity. Qed.

(** ** No password in any body *)

Lemma has_key_post (p : post_row) : has_key "password" (json_of_post p) = false.
Proof. unfold json_of_post. destruct (post_Users p); reflexivity. Qed.

Lemma has_key_posts (l : list post_row) :
  existsb (has_key "password") (json_of_post <$> l) = false.
Proof.
  induction l as [|p l IH]; [reflexivity|].
  cbn [fmap list_fmap existsb]. rewrite has_key_post. exact IH.
Qed.

Lemma has_key_strings (l : list string) :
  existsb (has_key "password") (JStr <$> l) = false.
Proof. induction l as [|s l IH]; [reflexivity | exact IH]. Qed.

Lemma has_key_number (k : string) (n : JS.number) : has_key k (json_of_number n) = false.
Proof. destruct n; reflexivity. Qed.

Lemma has_key_opt_post (o : option post_row) :
  has_key "password" (jopt json_of_post o) = false.
Proof. destruct o; [apply has_key_post | reflexivity]. Qed.

(** Symbolic execution of a handler: the replies of the store and the
    tests of the handler are split into cases. *)
Ltac run_store :=
  match goal with
  | |- context [run_user ?s ?q ?d] =>
      let r := fresh "r" in let d' := fresh "d" in
      destruct (run_user s q d) as [r d']; destruct r as [? ?]
  | |- context [run_post ?s ?q ?d] =>
      let r := fresh "r" in let d' := fresh "d" in
      destruct (run_post s q d) as [r d']; destruct r as [? ?]
  | |- context [run_list ?s ?q ?d] =>
      let r := fresh "r" in let d' := fresh "d" in
      destruct (run_list s q d) as [r d']; destruct r as [? ? ?]
  end.

Ltac run_test :=
  match goal with
  | |- context [match ?x with _ => _ end] =>
      match type of x with
      | option _ => destruct x
      | bool => destruct x
      | sum _ _ => destruct x
      end
  | |- context [if ?x then _ else _] => destruct x
  end.

Ltac run_simpl := cbn -[has_key String.eqb JS.truthy].

Ltac run_handler :=
  unfold trace, result, start, try_catch, query_user, query_post, query_list,
    send, emit, throw, ok_row;
  run_simpl;
  repeat first [ progress rewrite run_bind
               | progress run_simpl
               | run_store
               | run_test ].

Lemma register_no_password {db} (W : World db) (req : request) (d : db) :
  no_password (trace (Index.register W req) d) = true
  /\ is_Some (response_of (trace (Index.register W req) d)).
Proof.
  unfold Index.register, Index.register_try.
  destruct (negb _ || negb _ || negb _);
    run_handler; (split; [reflexivity | eexists; reflexivity]).
Qed.

Ltac split_optional :=
  repeat match goal with
         | |- context [jopt JStr ?o] => destruct o; cbn [jopt]
         end.

Lemma login_no_password {db} (W : World db) (req : request) (d : db) :
  no_password (trace (Index.login W req) d) = true
  /\ is_Some (response_of (trace (Index.login W req) d)).
Proof.
  unfold Index.login, Index.generateTokenAndSetCookie.
  destruct (negb _ || negb _);
    run_handler; split_optional; (split; [reflexivity | eexists; reflexivity]).
Qed.

Lemma me_no_password {db} (W : World db) (req : request) (d : db) :
  no_password (trace (Index.me W req) d) = true
  /\ is_Some (response_of (trace (Index.me W req) d)).
Proof.
  unfold Index.me.
  destruct (negb _);
    run_handler; split_optional;
    (split; [unfold no_password; cbn; rewrite ?has_key_strings; reflexivity
            | eexists; reflexivity]).
Qed.

Lemma get_posts_no_password {db} (W : World db) (req : request) (d : db) :
  no_password (trace (Index.get_posts W req) d) = true
  /\ is_Some (response_of (trace (Index.get_posts W req) d)).
Proof.
  unfold Index.get_posts.
  run_handler;
    (split; [unfold no_password; cbn;
             try match goal with
                 | |- context [jopt _ ?o] => destruct o; cbn
                 end;
             rewrite ?has_key_posts, ?has_key_number; reflexivity
            | eexists; reflexivity]).
Qed.

(** C7. Register, login, /auth/me and GET /posts always answer, and no body
    they pass to [res.json] has a [password] key at any depth, whatever the
    request and whatever the store replies: the user rows the store returns
    carry the hash, the bodies are built from the other fields. *)
Theorem password_never_in_response {db} (W : World db) (req : request) (d : db) :
  Forall (fun handler : World db -> request -> M db unit =>
            no_password (trace (handler W req) d) = true
            /\ is_Some (response_of (trace (handler W req) d)))
         [Index.register; Index.login; Index.me; Index.get_posts].
Proof.
  repeat constructor.
  - apply register_no_password.
  - apply register_no_password.
  - apply login_no_password.
  - apply login_no_password.
  - apply me_no_password.
  - apply me_no_password.
  - apply get_posts_no_password.
  - apply get_posts_no_password.
Qed.

(** ** Handlers that answer more than once *)

Ltac run_with H :=
  unfold trace, result, start, try_catch, query_user, query_post, query_list,
    send, emit, throw, ok_row;
  repeat first [ progress rewrite run_bind
               | progress run_simpl
               | progress rewrite H ].

(** C10. Two handlers of index.js call [res.json] again after the response
    is out.  PUT /posts/:id, when the store reports an error: the 400 is
    sent, the handler goes on to the 200 call, which fails because the
    response is already out, and the [catch] block makes a third call.
    POST /auth/register, when the insert fails with no row: the 500 is sent,
    the handler goes on and reads [newUser.id] on null, and the [catch]
    block calls [res.json] once more.  In both the client receives the
    first response and the handler ends with an exception. *)
Theorem handlers_answer_twice {db} (W : World db) (req : request) (d : db) :
  (forall c title body_ r d' e,
      user req = Some c ->
      body req !! "title" = Some title -> title <> EmptyString ->
      body req !! "body" = Some body_ -> body_ <> EmptyString ->
      run_post (store W) (UpdatePost (params_id req) (claim_id c) title body_) d = (r, d') ->
      error r = Some e ->
      trace (Index.update_post W req) d
      = [EPostQuery (UpdatePost (params_id req) (claim_id c) title body_);
         ESend 400 (message "Not authorized to update this post ");
         ESendAgain 200 (JObj [("updatedPost", jopt json_of_post (data r))]);
         ESendAgain 500 (message "internal server error")]
      /\ result (Index.update_post W req) d = Thrown ERR_HTTP_HEADERS_SENT)
  /\ (forall name email password r1 d1 r2 d2 e,
        body req !! "name" = Some name -> name <> EmptyString ->
        body req !! "email" = Some email -> email <> EmptyString ->
        body req !! "password" = Some password -> password <> EmptyString ->
        run_user (store W) (SelectUserByEmail email) d = (r1, d1) ->
        data r1 = None ->
        run_user (store W) (InsertUser name email (Some (bcrypt_hash W password))) d1
        = (r2, d2) ->
        error r2 = Some e -> data r2 = None ->
        trace (Index.register_try W name email password) d
        = [EUserQuery (SelectUserByEmail email);
           EUserQuery (InsertUser name email (Some (bcrypt_hash W password)));
           ESend 500 (message "error creating user")]
        /\ result (Index.register_try W name email password) d = Thrown (TypeError "id")
        /\ trace (Index.register W req) d
           = [EUserQuery (SelectUserByEmail email);
              EUserQuery (InsertUser name email (Some (bcrypt_hash W password)));
              ESend 500 (message "error creating user");
              ESendAgain 500 (JObj [("error", JStr "internal server error")])]
        /\ result (Index.register W req) d = Thrown ERR_HTTP_HEADERS_SENT).
Proof.
  split.
  - intros c title body_ r d' e Hu Ht Htne Hb Hbne Hrun He.
    unfold Index.update_post, Index.update_post_try, Index.req_user_id.
    rewrite (truthy_Some _ _ Ht Htne), (truthy_Some _ _ Hb Hbne), Hu, Ht, Hb.
    split; run_with Hrun; rewrite He; reflexivity.
  - intros name email password r1 d1 r2 d2 e Hn Hnne Hm Hmne Hp Hpne H1 Hd1 H2 He2 Hd2.
    unfold Index.register.
    rewrite (truthy_Some _ _ Hn Hnne), (truthy_Some _ _ Hm Hmne),
      (truthy_Some _ _ Hp Hpne), Hn, Hm, Hp.
    unfold Index.register_try.
    repeat split; run_with H1; rewrite Hd1; run_with H2; rewrite He2, Hd2; reflexivity.
Qed.

Lemma handlers_answer_twice_witness :
  let W := Example_world.world Scripted.store in
  let put := Example_world.with_body {[ "title" := "t"; "body" := "b" ]}
               (with_user Example_world.request0 Example_world.alice_claims) in
  let reg := Example_world.with_body
               {[ "name" := "Bob"; "email" := "bob@example.com"; "password" := "pw" ]}
               Example_world.request0 in
  json_calls (trace (Index.update_post W put) (Scripted.posts [failed no_rows]))
  = [(400, message "Not authorized to update this post ");
     (200, JObj [("updatedPost", JNull)]);
     (500, message "internal server error")]
  /\ json_calls (trace (Index.register W reg)
                   (Scripted.users [failed no_rows; failed unique_violation]))
     = [(500, message "error creating user");
        (500, JObj [("error", JStr "internal server error")])]
  /\ result (Index.register_try W "Bob" "bob@example.com" "pw")
       (Scripted.users [failed no_rows; failed unique_violation])
     = Thrown (TypeError "id").
Proof.
  intros W put reg. split; [|split].
  - destruct (proj1 (handlers_answer_twice W put (Scripted.posts [failed no_rows]))
                Example_world.alice_claims "t" "b" (failed no_rows) (Scripted.posts [])
                no_rows) as [Ht _];
      [reflexivity | vm_compute; reflexivity | discriminate | vm_compute; reflexivity
      | discriminate | reflexivity | reflexivity |].
    rewrite Ht. reflexivity.
  - destruct (proj2 (handlers_answer_twice W reg
                       (Scripted.users [failed no_rows; failed unique_violation]))
                "Bob" "bob@example.com" "pw"
                (failed no_rows) (Scripted.users [failed unique_violation])
                (failed unique_violation) (Scripted.users []) unique_violation)
      as (_ & _ & Ht & _);
      [vm_compute; reflexivity | discriminate | vm_compute; reflexivity | discriminate
      | vm_compute; reflexivity | discriminate | reflexivity | reflexivity | reflexivity
      | reflexivity | reflexivity |].
    rewrite Ht. reflexivity.
  - destruct (proj2 (handlers_answer_twice W reg
                       (Scripted.users [failed no_rows; failed unique_violation]))
                "Bob" "bob@example.com" "pw"
                (failed no_rows) (Scripted.users [failed unique_violation])
                (failed unique_violation) (Scripted.users []) unique_violation)
      as (_ & Hr & _ & _);
      [vm_compute; reflexivity | discriminate | vm_compute; reflexivity | discriminate
      | vm_compute; reflexivity | discriminate | reflexivity | reflexivity | reflexivity
      | reflexivity | reflexivity |].
    exact Hr.
Defined.

(** ** PUT and DELETE /posts/:id when the store matches no row *)

(** index.js, behind the middleware: an error of the store is answered 400
    with the messages of index.js. *)
Lemma index_rejects_on_store_error {db} (W : World db) (req : request) (d : db)
    (t : string) (c : claims) :
  Index.token W req = Some t -> t <> EmptyString -> jwt_verify W t = inl c ->
  (forall title body_ r d' e,
      body req !! "title" = Some title -> title <> EmptyString ->
      body req !! "body" = Some body_ -> body_ <> EmptyString ->
      run_post (store W) (UpdatePost (params_id req) (claim_id c) title body_) d = (r, d') ->
      error r = Some e ->
      response_of (trace (Index.put_posts_id W req) d)
      = Some (400, message "Not authorized to update this post "))
  /\ (forall r d' e,
        run_post (store W) (DeletePost (params_id req) (claim_id c) false) d = (r, d') ->
        error r = Some e ->
        response_of (trace (Index.delete_posts_id W req) d)
        = Some (400, message "not authorized to delete this post")).
Proof.
  intros Ht Hne Hv. split.
  - intros title body_ r d' e Hti Htine Hb Hbne Hrun He.
    unfold Index.put_posts_id.
    rewrite (authenticateToken_with_token W req _ t Ht Hne), Hv.
    unfold Index.update_post, Index.update_post_try, Index.req_user_id, with_user.
    cbn [body user params_id].
    rewrite (truthy_Some _ _ Hti Htine), (truthy_Some _ _ Hb Hbne), Hti, Hb.
    run_with Hrun. rewrite He. reflexivity.
  - intros r d' e Hrun He.
    unfold Index.delete_posts_id.
    rewrite (authenticateToken_with_token W req _ t Ht Hne), Hv.
    unfold Index.delete_post, Index.req_user_id, with_user.
    cbn [body user params_id].
    run_with Hrun. rewrite He. reflexivity.
Qed.

(** test-server.js: an error of the store, or no row, is answered 400 with
    the longer messages, the ones the test suites expect. *)
Lemma test_server_rejects_without_row {db} (W : World db) (req : request) (d : db)
    (t : string) (c : claims) :
  Index.token W req = Some t -> t <> EmptyString -> jwt_verify W t = inl c ->
  (forall title body_ r d',
      body req !! "title" = Some title -> title <> EmptyString ->
      body req !! "body" = Some body_ -> body_ <> EmptyString ->
      run_post (store W) (UpdatePost (params_id req) (claim_id c) title body_) d = (r, d') ->
      ok_row r = None ->
      trace (TestServer.put_posts_id W req) d
      = [EVerify t;
         EPostQuery (UpdatePost (params_id req) (claim_id c) title body_);
         ESend 400 (message "Not authorized to update this post or post not found")])
  /\ (forall r d',
        run_post (store W) (DeletePost (params_id req) (claim_id c) true) d = (r, d') ->
        ok_row r = None ->
        trace (TestServer.delete_posts_id W req) d
        = [EVerify t;
           EPostQuery (DeletePost (params_id req) (claim_id c) true);
           ESend 400 (message "not authorized to delete this post or post not found")]).
Proof.
  intros Ht Hne Hv. split.
  - intros title body_ r d' Hti Htine Hb Hbne Hrun Hr.
    unfold TestServer.put_posts_id, TestServer.authenticateToken.
    rewrite (authenticateToken_with_token W req _ t Ht Hne), Hv.
    unfold TestServer.update_post, Index.req_user_id, with_user.
    cbn [body user params_id].
    rewrite (truthy_Some _ _ Hti Htine), (truthy_Some _ _ Hb Hbne), Hti, Hb.
    run_with Hrun. unfold ok_row in Hr.
    destruct (error r), (data r); try discriminate; reflexivity.
  - intros r d' Hrun Hr.
    unfold TestServer.delete_posts_id, TestServer.authenticateToken.
    rewrite (authenticateToken_with_token W req _ t Ht Hne), Hv.
    unfold TestServer.delete_post, Index.req_user_id, with_user.
    cbn [body user params_id].
    run_with Hrun. unfold ok_row in Hr.
    destruct (error r), (data r); try discriminate; reflexivity.
Qed.

(** C1. An authenticated PUT or DELETE of post 999, which matches no row: in
    index.js the answer is 400 with the message "Not authorized to update
    this post " (ending in a space) and "not authorized to delete this
    post"; the messages that end in "or post not found" are those of
    test-server.js. *)
Theorem index_ownership_messages :
  let W := Example_world.world Scripted.store in
  let req := Example_world.with_id "999"
               (Example_world.with_body {[ "title" := "t"; "body" := "b" ]}
                  (Example_world.with_headers (Example_world.bearer "good")
                     Example_world.request0)) in
  let db := Scripted.posts [failed no_rows] in
  response_of (trace (Index.put_posts_id W req) db)
  = Some (400, message "Not authorized to update this post ")
  /\ response_of (trace (Index.delete_posts_id W req) db)
     = Some (400, message "not authorized to delete this post")
  /\ response_of (trace (TestServer.put_posts_id W req) db)
     = Some (400, message "Not authorized to update this post or post not found")
  /\ response_of (trace (TestServer.delete_posts_id W req) db)
     = Some (400, message "not authorized to delete this post or post not found").
Proof. repeat split; vm_compute; reflexivity. Qed.

(** ** POST /auth/login *)

(** Against C6 as stated: Carol signed up with Google; a login with her
    email and some password, which is not her password, is answered with
    the Google message and not with "Invalid credentials". *)
Lemma login_wrong_password_counterexample :
  let req := Login_example.attempt "carol@example.com" "guess" in
  ok_row (fst (run_user (store Login_example.W) (SelectUserByEmail "carol@example.com")
                 Login_example.table))
  = Some Login_example.carol
  /\ password_is_right Login_example.W "guess" Login_example.carol = false
  /\ response_of (trace (Index.login Login_example.W req) Login_example.table)
     = Some (400, message "This account uses Google login. Please sign in with Google.")
  /\ response_of (trace (Index.login Login_example.W req) Login_example.table)
     <> Some (400, message "Invalid credentials").
Proof.
  repeat split; try (vm_compute; reflexivity).
  vm_compute. discriminate.
Qed.

(** C6, amended.  A login without email or without password (absent or
    empty) is answered 400 "Both email and password are required" and the
    store is neither queried nor changed.  A login with the email of an
    account that has a password hash, and a password that does not match
    it, is answered 400 "Invalid credentials".  A login with the email of
    an account without a password hash is answered 400 with the Google
    message, whatever the password. *)
Theorem login_rejections {db} (W : World db) (req : request) (d : db) :
  (JS.truthy (body req !! "email") = false \/ JS.truthy (body req !! "password") = false ->
   Index.login W req (start d)
   = (Returned tt,
      {| st_db := d;
         st_log := [ESend 400 (message "Both email and password are required")] |}))
  /\ (forall email password r d' u,
        body req !! "email" = Some email -> email <> EmptyString ->
        body req !! "password" = Some password -> password <> EmptyString ->
        run_user (store W) (SelectUserByEmail email) d = (r, d') ->
        ok_row r = Some u ->
        (forall h, user_password u = Some h -> h <> EmptyString ->
                   bcrypt_compare W password h = false ->
                   trace (Index.login W req) d
                   = [EUserQuery (SelectUserByEmail email);
                      ESend 400 (message "Invalid credentials")])
        /\ (JS.truthy (user_password u) = false ->
            trace (Index.login W req) d
            = [EUserQuery (SelectUserByEmail email);
               ESend 400 (message
                 "This account uses Google login. Please sign in with Google.")])).
Proof.
  split.
  - intros H. unfold Index.login.
    assert (E : negb (JS.truthy (body req !! "email"))
                || negb (JS.truthy (body req !! "password")) = true).
    { destruct H as [-> | ->]; [reflexivity | apply orb_true_r]. }
    rewrite E. reflexivity.
  - intros email password r d' u He Hene Hp Hpne Hrun Hok.
    unfold Index.login.
    rewrite (truthy_Some _ _ He Hene), (truthy_Some _ _ Hp Hpne), He, Hp.
    split.
    + intros h Hh Hhne Hcmp.
      unfold trace, start, try_catch, query_user. run_simpl. rewrite run_bind. run_simpl.
      rewrite Hrun. run_simpl. rewrite Hok.
      rewrite (truthy_Some _ _ Hh Hhne), Hh. run_simpl. rewrite Hcmp. reflexivity.
    + intros Hfalsy.
      unfold trace, start, try_catch, query_user. run_simpl. rewrite run_bind. run_simpl.
      rewrite Hrun. run_simpl. rewrite Hok, Hfalsy. reflexivity.
Qed.

Lemma login_rejections_witness :
  let W := Login_example.W in
  trace (Index.login W (Login_example.attempt "dave@example.com" EmptyString))
    Login_example.table
  = [ESend 400 (message "Both email and password are required")]
  /\ trace (Index.login W (Login_example.attempt "dave@example.com" "guess"))
       Login_example.table
     = [EUserQuery (SelectUserByEmail "dave@example.com");
        ESend 400 (message "Invalid credentials")]
  /\ trace (Index.login W (Login_example.attempt "carol@example.com" "guess"))
       Login_example.table
     = [EUserQuery (SelectUserByEmail "carol@example.com");
        ESend 400 (message "This account uses Google login. Please sign in with Google.")].
Proof.
  intros W. split; [|split].
  - unfold trace.
    rewrite (proj1 (login_rejections W
                      (Login_example.attempt "dave@example.com" EmptyString)
                      Login_example.table));
      [reflexivity | right; vm_compute; reflexivity].
  - destruct (proj2 (login_rejections W
                       (Login_example.attempt "dave@example.com" "guess")
                       Login_example.table)
                "dave@example.com" "guess" (found Login_example.dave) Login_example.table
                Login_example.dave) as [H _];
      [vm_compute; reflexivity | discriminate | vm_compute; reflexivity | discriminate
      | reflexivity | reflexivity |].
    apply (H "$2b$10$secret"); [reflexivity | discriminate | reflexivity].
  - destruct (proj2 (login_rejections W
                       (Login_example.attempt "carol@example.com" "guess")
                       Login_example.table)
                "carol@example.com" "guess" (found Login_example.carol) Login_example.table
                Login_example.carol) as [_ H];
      [vm_compute; reflexivity | discriminate | vm_compute; reflexivity | discriminate
      | reflexivity | reflexivity |].
    apply H. reflexivity.
Defined.

(** ** The Google verify callback *)

Lemma append_nonempty (a : string) (c : ascii) (b : string) :
  (a ++ String c b)%string <> EmptyString.
Proof. destruct a; discriminate. Qed.

(** The name is always truthy: when [displayName] is falsy, the other
    operand of [||] is a concatenation around a space, never empty. *)
Lemma name_of_truthy (p : Passport.profile) : JS.truthy (Passport.name_of p) = true.
Proof.
  unfold Passport.name_of, JS.or.
  destruct (JS.truthy (Passport.displayName p)) eqn:E; [exact E|].
  eapply truthy_Some; [reflexivity|]. apply append_nonempty.
Qed.

(** A profile without a usable first email is refused before the store is
    touched. *)
Lemma missing_email_reported {db} (W : World db) (p : Passport.profile) (d : db) :
  JS.truthy (Passport.email_of p) = false ->
  Passport.verify W p (start d)
  = (Returned (Passport.Done (Some (Passport.Error "No email found in Google profile")) None),
     start d).
Proof.
  intros H. unfold Passport.verify, try_catch. rewrite H. reflexivity.
Qed.

(** With an email, the callback starts with a lookup of the email as the
    profile spells it. *)
Lemma verify_with_email {db} (W : World db) (p : Passport.profile) (e : string) :
  Passport.email_of p = Some e -> e <> EmptyString ->
  Passport.verify W p =
    try_catch
      (let name := default EmptyString (Passport.name_of p) in
       r ← query_user W (SelectUserByEmail e);
       match ok_row r with
       | Some existingUser => mret (Passport.Done None (Some existingUser))
       | None =>
           r' ← query_user W (InsertUser (JS.trim name) (JS.trim (JS.toLowerCase e)) None);
           match error r' with
           | Some createError =>
               if String.eqb (err_code createError) "23505"
               then
                 r'' ← query_user W (SelectUserByEmail e);
                 match ok_row r'' with
                 | Some retryUser => mret (Passport.Done None (Some retryUser))
                 | None => mret (Passport.Done (Some (Passport.StoreError createError)) None)
                 end
               else mret (Passport.Done (Some (Passport.StoreError createError)) None)
           | None =>
               match data r' with
               | Some newUser => mret (Passport.Done None (Some newUser))
               | None => throw (TypeError "email")
               end
           end
       end)
      (fun error => mret (Passport.Done (Some (Passport.Caught error)) None)).
Proof.
  intros He Hne. unfold Passport.verify.
  rewrite (truthy_Some _ _ He Hne), name_of_truthy, He. reflexivity.
Qed.

(** An existing user is returned, and nothing is inserted. *)
Lemma existing_user_logged_in {db} (W : World db) (p : Passport.profile) (d : db)
    (e : string) (r : reply user_row) (d' : db) (u : user_row) :
  Passport.email_of p = Some e -> e <> EmptyString ->
  run_user (store W) (SelectUserByEmail e) d = (r, d') -> ok_row r = Some u ->
  Passport.verify W p (start d)
  = (Returned (Passport.Done None (Some u)),
     {| st_db := d'; st_log := [EUserQuery (SelectUserByEmail e)] |}).
Proof.
  intros He Hne Hrun Hok. rewrite (verify_with_email W p e He Hne).
  unfold try_catch, query_user. run_simpl. rewrite run_bind. run_simpl.
  rewrite Hrun. run_simpl. rewrite Hok. reflexivity.
Qed.

(** When the lookup finds nobody, a user is inserted with the trimmed name,
    the lower-cased and trimmed email and no password, and returned. *)
Lemma new_user_created {db} (W : World db) (p : Passport.profile) (d : db)
    (e : string) (r1 : reply user_row) (d1 : db) (r2 : reply user_row) (d2 : db)
    (u : user_row) :
  Passport.email_of p = Some e -> e <> EmptyString ->
  let ins := InsertUser (JS.trim (default EmptyString (Passport.name_of p)))
               (JS.trim (JS.toLowerCase e)) None in
  run_user (store W) (SelectUserByEmail e) d = (r1, d1) -> ok_row r1 = None ->
  run_user (store W) ins d1 = (r2, d2) -> error r2 = None -> data r2 = Some u ->
  Passport.verify W p (start d)
  = (Returned (Passport.Done None (Some u)),
     {| st_db := d2; st_log := [EUserQuery (SelectUserByEmail e); EUserQuery ins] |}).
Proof.
  intros He Hne ins H1 Hok1 H2 Herr Hdata. subst ins.
  rewrite (verify_with_email W p e He Hne).
  unfold try_catch, query_user. run_simpl. rewrite run_bind. run_simpl.
  rewrite H1. run_simpl. rewrite Hok1. rewrite run_bind. run_simpl.
  rewrite H2. run_simpl. rewrite Herr, Hdata. reflexivity.
Qed.

(** C5. When the lookup finds nobody and the insert is refused with code
    23505, the callback looks the email up once more, and that is its last
    query: when this lookup finds a user the callback returns it, otherwise
    it reports the error of the insert. *)
Theorem oauth_duplicate_retry {db} (W : World db) (p : Passport.profile) (d : db)
    (e : string) (r1 r2 r3 : reply user_row) (d1 d2 d3 : db) (createError : pg_error) :
  Passport.email_of p = Some e -> e <> EmptyString ->
  let ins := InsertUser (JS.trim (default EmptyString (Passport.name_of p)))
               (JS.trim (JS.toLowerCase e)) None in
  run_user (store W) (SelectUserByEmail e) d = (r1, d1) -> ok_row r1 = None ->
  run_user (store W) ins d1 = (r2, d2) ->
  error r2 = Some createError -> err_code createError = "23505" ->
  run_user (store W) (SelectUserByEmail e) d2 = (r3, d3) ->
  Passport.verify W p (start d)
  = (Returned match ok_row r3 with
              | Some retryUser => Passport.Done None (Some retryUser)
              | None => Passport.Done (Some (Passport.StoreError createError)) None
              end,
     {| st_db := d3;
        st_log := [EUserQuery (SelectUserByEmail e); EUserQuery ins;
                   EUserQuery (SelectUserByEmail e)] |}).
Proof.
  intros He Hne ins H1 Hok1 H2 Herr Hcode H3. subst ins.
  rewrite (verify_with_email W p e He Hne).
  unfold try_catch, query_user. run_simpl. rewrite run_bind. run_simpl.
  rewrite H1. run_simpl. rewrite Hok1. rewrite run_bind. run_simpl.
  rewrite H2. run_simpl. rewrite Herr, Hcode, String.eqb_refl.
  rewrite run_bind. run_simpl. rewrite H3. run_simpl.
  destruct (ok_row r3); reflexivity.
Qed.

Lemma oauth_duplicate_retry_witness :
  let W := Example_world.world Scripted.store in
  let lost_race := [failed no_rows; failed unique_violation] in
  result (Passport.verify W Oauth_example.grace)
    (Scripted.users (lost_race ++ [found Oauth_example.grace_row]))
  = Returned (Passport.Done None (Some Oauth_example.grace_row))
  /\ result (Passport.verify W Oauth_example.grace)
       (Scripted.users (lost_race ++ [failed Oauth_example.timeout]))
     = Returned (Passport.Done (Some (Passport.StoreError unique_violation)) None).
Proof.
  intros W lost_race. unfold result. split.
  - rewrite (oauth_duplicate_retry W Oauth_example.grace
               (Scripted.users (lost_race ++ [found Oauth_example.grace_row]))
               "grace@example.com"
               (failed no_rows) (failed unique_violation) (found Oauth_example.grace_row)
               (Scripted.users [failed unique_violation; found Oauth_example.grace_row])
               (Scripted.users [found Oauth_example.grace_row])
               (Scripted.users []) unique_violation);
      [reflexivity | reflexivity | discriminate | reflexivity | reflexivity | reflexivity
      | reflexivity | reflexivity | reflexivity].
  - rewrite (oauth_duplicate_retry W Oauth_example.grace
               (Scripted.users (lost_race ++ [failed Oauth_example.timeout]))
               "grace@example.com"
               (failed no_rows) (failed unique_violation) (failed Oauth_example.timeout)
               (Scripted.users [failed unique_violation; failed Oauth_example.timeout])
               (Scripted.users [failed Oauth_example.timeout])
               (Scripted.users []) unique_violation);
      [reflexivity | reflexivity | discriminate | reflexivity | reflexivity | reflexivity
      | reflexivity | reflexivity | reflexivity].
Defined.

(** C3. Frank's profile spells the email [Frank@Example.com].  The first
    sign-in looks that spelling up, finds nobody and inserts the user under
    [frank@example.com].  The second sign-in looks the same spelling up
    again, finds nobody, is refused the insert as a duplicate, retries the
    same lookup and ends with the error of the insert, although a lookup of
    the normalized email finds the user. *)
Theorem oauth_lookup_not_normalized :
  let W := Example_world.world MemStore.store in
  let lookup := EUserQuery (SelectUserByEmail "Frank@Example.com") in
  let insert := EUserQuery (InsertUser "Frank" "frank@example.com" None) in
  Passport.verify W Oauth_example.frank (start [])
  = (Returned (Passport.Done None (Some Oauth_example.frank_row)),
     {| st_db := [Oauth_example.frank_row]; st_log := [lookup; insert] |})
  /\ Passport.verify W Oauth_example.frank (start [Oauth_example.frank_row])
     = (Returned (Passport.Done (Some (Passport.StoreError unique_violation)) None),
        {| st_db := [Oauth_example.frank_row]; st_log := [lookup; insert; lookup] |})
  /\ JS.trim (JS.toLowerCase "Frank@Example.com") = "frank@example.com"
  /\ ok_row (fst (run_user (store W) (SelectUserByEmail "frank@example.com")
                    [Oauth_example.frank_row]))
     = Some Oauth_example.frank_row.
Proof. repeat split; vm_compute; reflexivity. Qed.

(** C9. The callback never ends with the error "No name found in Google
    profile", whatever the profile and the store; a profile with an email
    and neither [displayName] nor [name] gets a user named
    [undefined undefined]. *)
Theorem missing_name_never_reported :
  (forall (db : Type) (W : World db) (p : Passport.profile) (d : db),
      result (Passport.verify W p) d
      <> Returned (Passport.Done (Some (Passport.Error "No name found in Google profile")) None))
  /\ Passport.name_of Oauth_example.nameless = Some "undefined undefined"
  /\ Passport.verify (Example_world.world MemStore.store) Oauth_example.nameless (start [])
     = (Returned (Passport.Done None (Some Oauth_example.nameless_row)),
        {| st_db := [Oauth_example.nameless_row];
           st_log := [EUserQuery (SelectUserByEmail "erin@example.com");
                      EUserQuery (InsertUser "undefined undefined" "erin@example.com" None)] |}).
Proof.
  split; [|split; vm_compute; reflexivity].
  intros db W p d. unfold result.
  destruct (JS.truthy (Passport.email_of p)) eqn:E.
  - destruct (truthy_inv _ E) as (e & He & Hne).
    rewrite (verify_with_email W p e He Hne).
    run_handler; discriminate.
  - rewrite (missing_email_reported W p d E). discriminate.
Qed.

(** ** Handlers that answer exactly once *)

Ltac one_answer := split; [reflexivity | do 2 eexists; split; reflexivity].

Lemma login_answers_once {db} (W : World db) (req : request) (d : db) :
  answers_once (Index.login W req) d.
Proof.
  unfold answers_once, Index.login, Index.generateTokenAndSetCookie.
  destruct (negb _ || negb _); run_handler; one_answer.
Qed.

Lemma me_answers_once {db} (W : World db) (req : request) (d : db) :
  answers_once (Index.me W req) d.
Proof.
  unfold answers_once, Index.me. destruct (negb _); run_handler; one_answer.
Qed.

Lemma get_posts_answers_once {db} (W : World db) (req : request) (d : db) :
  answers_once (Index.get_posts W req) d.
Proof. unfold answers_once, Index.get_posts. run_handler; one_answer. Qed.

Lemma create_post_answers_once {db} (W : World db) (req : request) (d : db) :
  answers_once (Index.create_post W req) d.
Proof.
  unfold answers_once, Index.create_post, Index.req_user_id.
  destruct (negb _ || negb _); run_handler; one_answer.
Qed.

Lemma delete_post_answers_once {db} (W : World db) (req : request) (d : db) :
  answers_once (Index.delete_post W req) d.
Proof.
  unfold answers_once, Index.delete_post, Index.req_user_id. run_handler; one_answer.
Qed.

Lemma logout_answers_once {db} (W : World db) (req : request) (d : db) :
  answers_once (Index.logout W req) d.
Proof. unfold answers_once, Index.logout. run_handler; one_answer. Qed.

Lemma post_posts_answers_once {db} (W : World db) (req : request) (d : db) :
  answers_once (Index.post_posts W req) d.
Proof.
  unfold answers_once, Index.post_posts, Index.authenticateToken.
  destruct (negb (JS.truthy (Index.token W req))); [run_handler; one_answer|].
  unfold Index.create_post, Index.req_user_id.
  destruct (jwt_verify W _); [|run_handler; one_answer].
  cbn [with_user body user].
  destruct (negb _ || negb _); run_handler; one_answer.
Qed.

Lemma delete_posts_id_answers_once {db} (W : World db) (req : request) (d : db) :
  answers_once (Index.delete_posts_id W req) d.
Proof.
  unfold answers_once, Index.delete_posts_id, Index.authenticateToken.
  destruct (negb (JS.truthy (Index.token W req))); [run_handler; one_answer|].
  unfold Index.delete_post, Index.req_user_id.
  destruct (jwt_verify W _); run_handler; one_answer.
Qed.

(** X1. In index.js the handlers of login, /auth/me, GET /posts, POST /posts,
    DELETE /posts/:id and logout, and the guarded routes POST /posts and
    DELETE /posts/:id, return normally and call [res.json] exactly once,
    whatever the request and whatever the store replies. *)
Theorem index_handlers_answer_once {db} (W : World db) (req : request) (d : db) :
  Forall (fun handler : World db -> request -> M db unit =>
            answers_once (handler W req) d)
         [Index.login; Index.me; Index.get_posts; Index.create_post;
          Index.delete_post; Index.logout; Index.post_posts; Index.delete_posts_id].
Proof.
  repeat constructor.
  all: first [ apply login_answers_once | apply me_answers_once
             | apply get_posts_answers_once | apply create_post_answers_once
             | apply delete_post_answers_once | apply logout_answers_once
             | apply post_posts_answers_once | apply delete_posts_id_answers_once ].
Qed.

Lemma test_register_answers_once {db} (W : World db) (req : request) (d : db) :
  answers_once (TestServer.register W req) d.
Proof.
  unfold answers_once, TestServer.register.
  destruct (negb _ || negb _ || negb _); run_handler; one_answer.
Qed.

Lemma test_update_answers_once {db} (W : World db) (req : request) (d : db) :
  answers_once (TestServer.update_post W req) d.
Proof.
  unfold answers_once, TestServer.update_post, Index.req_user_id.
  destruct (negb _ || negb _); run_handler; one_answer.
Qed.

Lemma test_delete_answers_once {db} (W : World db) (req : request) (d : db) :
  answers_once (TestServer.delete_post W req) d.
Proof.
  unfold answers_once, TestServer.delete_post, Index.req_user_id.
  run_handler; one_answer.
Qed.

Lemma test_put_route_answers_once {db} (W : World db) (req : request) (d : db) :
  answers_once (TestServer.put_posts_id W req) d.
Proof.
  unfold answers_once, TestServer.put_posts_id, TestServer.authenticateToken,
    Index.authenticateToken.
  destruct (negb (JS.truthy (Index.token W req))); [run_handler; one_answer|].
  unfold TestServer.update_post, Index.req_user_id.
  destruct (jwt_verify W _); [|run_handler; one_answer].
  cbn [with_user body user].
  destruct (negb _ || negb _); run_handler; one_answer.
Qed.

Lemma test_delete_route_answers_once {db} (W : World db) (req : request) (d : db) :
  answers_once (TestServer.delete_posts_id W req) d.
Proof.
  unfold answers_once, TestServer.delete_posts_id, TestServer.authenticateToken,
    Index.authenticateToken.
  destruct (negb (JS.truthy (Index.token W req))); [run_handler; one_answer|].
  unfold TestServer.delete_post, Index.req_user_id.
  destruct (jwt_verify W _); run_handler; one_answer.
Qed.

(** X2. In test-server.js the handlers of register, PUT /posts/:id and
    DELETE /posts/:id, alone and behind the middleware, return normally and
    call [res.json] exactly once, whatever the request and whatever the
    store replies: every error branch returns. *)
Theorem test_server_handlers_answer_once {db} (W : World db) (req : request) (d : db) :
  Forall (fun handler : World db -> request -> M db unit =>
            answers_once (handler W req) d)
         [TestServer.register; TestServer.update_post; TestServer.delete_post;
          TestServer.put_posts_id; TestServer.delete_posts_id].
Proof.
  repeat constructor.
  all: first [ apply test_register_answers_once | apply test_update_answers_once
             | apply test_delete_answers_once | apply test_put_route_answers_once
             | apply test_delete_route_answers_once ].
Qed.

(** ** POST /auth/register *)

(** X3. Register refuses a body without name, email or password (absent or
    empty) with 400 "all fields are required" before touching the store;
    and when the lookup of the email returns a row it answers 400 "user
    already exists" after that one query, whether or not the reply also
    carries an error. *)
Theorem register_rejections {db} (W : World db) (req : request) (d : db) :
  (JS.truthy (body req !! "name") = false \/ JS.truthy (body req !! "email") = false
   \/ JS.truthy (body req !! "password") = false ->
   Index.register W req (start d)
   = (Returned tt,
      {| st_db := d; st_log := [ESend 400 (message "all fields are required")] |}))
  /\ (forall name email password r d' existingUser,
        body req !! "name" = Some name -> name <> EmptyString ->
        body req !! "email" = Some email -> email <> EmptyString ->
        body req !! "password" = Some password -> password <> EmptyString ->
        run_user (store W) (SelectUserByEmail email) d = (r, d') ->
        data r = Some existingUser ->
        Index.register W req (start d)
        = (Returned tt,
           {| st_db := d';
              st_log := [EUserQuery (SelectUserByEmail email);
                         ESend 400 (message "user already exists")] |})).
Proof.
  split.
  - intros H. unfold Index.register.
    assert (E : negb (JS.truthy (body req !! "name"))
                || negb (JS.truthy (body req !! "email"))
                || negb (JS.truthy (body req !! "password")) = true).
    { destruct H as [-> | [-> | ->]]; rewrite ?orb_true_r; reflexivity. }
    rewrite E. reflexivity.
  - intros name email password r d' u Hn Hnne Hm Hmne Hp Hpne Hrun Hdata.
    unfold Index.register, Index.register_try.
    rewrite (truthy_Some _ _ Hn Hnne), (truthy_Some _ _ Hm Hmne),
      (truthy_Some _ _ Hp Hpne), Hn, Hm, Hp.
    run_with Hrun. rewrite Hdata. reflexivity.
Qed.

Lemma register_rejections_witness :
  let W := Login_example.W in
  let form n e p := Example_world.with_body
                      {[ "name" := n; "email" := e; "password" := p ]}
                      Example_world.request0 in
  trace (Index.register W (form "Dave" "dave@example.com" EmptyString)) Login_example.table
  = [ESend 400 (message "all fields are required")]
  /\ trace (Index.register W (form "Dave" "dave@example.com" "pw")) Login_example.table
     = [EUserQuery (SelectUserByEmail "dave@example.com");
        ESend 400 (message "user already exists")].
Proof.
  intros W form. unfold trace. split.
  - rewrite (proj1 (register_rejections W (form "Dave" "dave@example.com" EmptyString)
                      Login_example.table));
      [reflexivity | right; right; vm_compute; reflexivity].
  - rewrite (proj2 (register_rejections W (form "Dave" "dave@example.com" "pw")
                      Login_example.table)
               "Dave" "dave@example.com" "pw" (found Login_example.dave)
               Login_example.table Login_example.dave);
      [reflexivity | vm_compute; reflexivity | discriminate | vm_compute; reflexivity
      | discriminate | vm_compute; reflexivity | discriminate | reflexivity | reflexivity].
Defined.

(** X4. When the lookup returns no row (with or without an error) and the
    insert succeeds, register has inserted the name and email of the body
    with the bcrypt hash of the password, never the password itself, and
    answers 201 with the id, name and email of the inserted row. *)
Theorem register_creates_user {db} (W : World db) (req : request) (d : db)
    (name email password : string) (r1 r2 : reply user_row) (d1 d2 : db)
    (newUser : user_row) :
  body req !! "name" = Some name -> name <> EmptyString ->
  body req !! "email" = Some email -> email <> EmptyString ->
  body req !! "password" = Some password -> password <> EmptyString ->
  run_user (store W) (SelectUserByEmail email) d = (r1, d1) -> data r1 = None ->
  run_user (store W) (InsertUser name email (Some (bcrypt_hash W password))) d1 = (r2, d2) ->
  error r2 = None -> data r2 = Some newUser ->
  Index.register W req (start d)
  = (Returned tt,
     {| st_db := d2;
        st_log := [EUserQuery (SelectUserByEmail email);
                   EUserQuery (InsertUser name email (Some (bcrypt_hash W password)));
                   ESend 201 (JObj [("message", JStr "User created successfully");
                                    ("user", JObj [("id", JNum (user_id newUser));
                                                   ("name", JStr (user_name newUser));
                                                   ("email", JStr (user_email newUser))])])] |}).
Proof.
  intros Hn Hnne Hm Hmne Hp Hpne H1 Hd1 H2 He2 Hd2.
  unfold Index.register, Index.register_try.
  rewrite (truthy_Some _ _ Hn Hnne), (truthy_Some _ _ Hm Hmne),
    (truthy_Some _ _ Hp Hpne), Hn, Hm, Hp.
  run_with H1. rewrite Hd1. run_with H2. rewrite He2, Hd2. reflexivity.
Qed.

Lemma register_creates_user_witness :
  let W := Login_example.W in
  let req := Example_world.with_body
               {[ "name" := "Erin"; "email" := "erin@example.com"; "password" := "pw" ]}
               Example_world.request0 in
  let erin := {| user_id := 9; user_name := "Erin"; user_email := "erin@example.com";
                 user_password := Some "$2b$10$pw"; user_profile_picture := None;
                 user_created_at := "now" |} in
  Index.register W req (start Login_example.table)
  = (Returned tt,
     {| st_db := (Login_example.table ++ [erin])%list;
        st_log := [EUserQuery (SelectUserByEmail "erin@example.com");
                   EUserQuery (InsertUser "Erin" "erin@example.com" (Some "$2b$10$pw"));
                   ESend 201 (JObj [("message", JStr "User created successfully");
                                    ("user", JObj [("id", JNum 9); ("name", JStr "Erin");
                                                   ("email", JStr "erin@example.com")])])] |}).
Proof.
  intros W req erin.
  apply (register_creates_user W req Login_example.table "Erin" "erin@example.com" "pw"
           (failed no_rows) (found erin) Login_example.table
           (Login_example.table ++ [erin])%list erin);
    first [ discriminate | vm_compute; reflexivity ].
Defined.

(** ** POST /auth/login, the paths the claims leave out *)

(** X5. A login with the email of an account whose hash matches the password
    makes one query, sets the cookie named by the environment to a token
    signed for the id and email of the account, with [sameSite] "none" and
    [secure] in production and "lax" and not secure otherwise, and answers
    200 with id, name, email and profile picture. *)
Theorem login_success {db} (W : World db) (req : request) (d : db)
    (email password h : string) (r : reply user_row) (d' : db) (u : user_row) :
  body req !! "email" = Some email -> email <> EmptyString ->
  body req !! "password" = Some password -> password <> EmptyString ->
  run_user (store W) (SelectUserByEmail email) d = (r, d') -> ok_row r = Some u ->
  user_password u = Some h -> h <> EmptyString -> bcrypt_compare W password h = true ->
  Index.login W req (start d)
  = (Returned tt,
     {| st_db := d';
        st_log := [EUserQuery (SelectUserByEmail email);
                   ECookie (COOKIE_NAME (env W))
                     (jwt_sign W {| claim_id := user_id u; claim_email := user_email u |})
                     (if is_production W
                      then {| sameSite := "none"; secure := true |}
                      else {| sameSite := "lax"; secure := false |});
                   ESend 200 (JObj [("message", JStr "Login successful");
                                    ("user", JObj [("id", JNum (user_id u));
                                                   ("name", JStr (user_name u));
                                                   ("email", JStr (user_email u));
                                                   ("profile_picture",
                                                    jopt JStr (user_profile_picture u))])])] |}).
Proof.
  intros He Hene Hp Hpne Hrun Hok Hh Hhne Hcmp.
  unfold Index.login, Index.generateTokenAndSetCookie.
  rewrite (truthy_Some _ _ He Hene), (truthy_Some _ _ Hp Hpne), He, Hp.
  unfold try_catch, query_user. run_simpl. rewrite run_bind. run_simpl.
  rewrite Hrun. run_simpl. rewrite Hok.
  rewrite (truthy_Some _ _ Hh Hhne), Hh. run_simpl. rewrite Hcmp.
  unfold emit, send. run_simpl. reflexivity.
Qed.

Lemma login_success_witness :
  let W := Login_example.W in
  Index.login W (Login_example.attempt "dave@example.com" "secret")
    (start Login_example.table)
  = (Returned tt,
     {| st_db := Login_example.table;
        st_log := [EUserQuery (SelectUserByEmail "dave@example.com");
                   ECookie (Some "token") "good" {| sameSite := "lax"; secure := false |};
                   ESend 200 (JObj [("message", JStr "Login successful");
                                    ("user", JObj [("id", JNum 8); ("name", JStr "Dave");
                                                   ("email", JStr "dave@example.com");
                                                   ("profile_picture", JNull)])])] |}).
Proof.
  intros W.
  apply (login_success W (Login_example.attempt "dave@example.com" "secret")
           Login_example.table "dave@example.com" "secret" "$2b$10$secret"
           (found Login_example.dave) Login_example.table Login_example.dave);
    first [ discriminate | vm_compute; reflexivity ].
Defined.

(** X6. When the lookup of the email returns no row, or returns a row
    together with an error, login answers 400 "User not found" and sets no
    cookie. *)
Theorem login_user_not_found {db} (W : World db) (req : request) (d : db)
    (email password : string) (r : reply user_row) (d' : db) :
  body req !! "email" = Some email -> email <> EmptyString ->
  body req !! "password" = Some password -> password <> EmptyString ->
  run_user (store W) (SelectUserByEmail email) d = (r, d') -> ok_row r = None ->
  Index.login W req (start d)
  = (Returned tt,
     {| st_db := d';
        st_log := [EUserQuery (SelectUserByEmail email);
                   ESend 400 (message "User not found")] |}).
Proof.
  intros He Hene Hp Hpne Hrun Hok.
  unfold Index.login.
  rewrite (truthy_Some _ _ He Hene), (truthy_Some _ _ Hp Hpne), He, Hp.
  unfold try_catch, query_user. run_simpl. rewrite run_bind. run_simpl.
  rewrite Hrun. run_simpl. rewrite Hok. reflexivity.
Qed.

Lemma login_user_not_found_witness :
  trace (Index.login Login_example.W (Login_example.attempt "nobody@example.com" "pw"))
    Login_example.table
  = [EUserQuery (SelectUserByEmail "nobody@example.com");
     ESend 400 (message "User not found")].
Proof.
  unfold trace.
  rewrite (login_user_not_found Login_example.W
             (Login_example.attempt "nobody@example.com" "pw") Login_example.table
             "nobody@example.com" "pw" (failed no_rows) Login_example.table);
    first [ reflexivity | discriminate | vm_compute; reflexivity ].
Defined.

(** X7. Login sets a cookie exactly when it answers 200: no failed login,
    for any request and any store, leaves a session cookie. *)
Theorem login_cookie_only_on_success {db} (W : World db) (req : request) (d : db) :
  existsb is_cookie (trace (Index.login W req) d)
  = answered_ok (trace (Index.login W req) d).
Proof.
  unfold Index.login, Index.generateTokenAndSetCookie.
  destruct (negb _ || negb _); run_handler; reflexivity.
Qed.

(** X8. Login, /auth/me and GET /posts only read: each makes at most one
    query, and it is a select. *)
Theorem read_only_handlers {db} (W : World db) (req : request) (d : db) :
  Forall (fun handler : World db -> request -> M db unit =>
            forallb is_select (queries (trace (handler W req) d)) = true
            /\ Nat.leb (length (queries (trace (handler W req) d))) 1 = true)
         [Index.login; Index.me; Index.get_posts].
Proof.
  repeat constructor.
  1,2: unfold Index.login, Index.generateTokenAndSetCookie;
       destruct (negb _ || negb _); run_handler; reflexivity.
  1,2: unfold Index.me; destruct (negb _); run_handler; reflexivity.
  1,2: unfold Index.get_posts; run_handler; reflexivity.
Qed.

(** ** The session: from login to the guarded routes and /auth/me *)

(** X9. The cookie a successful login sets opens the session: provided the
    cookie name is configured, the token is not empty and [jwt.verify]
    accepts what [jwt.sign] produced, a later request that carries this
    cookie and no Authorization header passes the middleware with the id
    and email of the account as [req.user], and /auth/me verifies it and
    looks the account up by that id. *)
Theorem session_round_trip {db} (W : World db) (req : request) (d : db)
    (email password h n : string) (r : reply user_row) (d' : db) (u : user_row) :
  body req !! "email" = Some email -> email <> EmptyString ->
  body req !! "password" = Some password -> password <> EmptyString ->
  run_user (store W) (SelectUserByEmail email) d = (r, d') -> ok_row r = Some u ->
  user_password u = Some h -> h <> EmptyString -> bcrypt_compare W password h = true ->
  COOKIE_NAME (env W) = Some n ->
  let c := {| claim_id := user_id u; claim_email := user_email u |} in
  let tok := jwt_sign W c in
  tok <> EmptyString -> jwt_verify W tok = inl c ->
  (exists o, In (ECookie (Some n) tok o) (trace (Index.login W req) d))
  /\ forall (req' : request) (cs : gmap string string),
       headers req' !! "authorization" = None ->
       cookies req' = Some cs -> cs !! n = Some tok ->
       (forall next, Index.authenticateToken W req' next
                     = (emit (EVerify tok);; next (with_user req' c)))
       /\ (forall d0, exists rest,
              trace (Index.me W req') d0
              = EVerify tok :: EUserQuery (SelectUserById (user_id u)) :: rest).
Proof.
  intros He Hene Hp Hpne Hrun Hok Hh Hhne Hcmp Hn c tok Htok Hv. split.
  - eexists. unfold trace, Index.login, Index.generateTokenAndSetCookie.
    rewrite (truthy_Some _ _ He Hene), (truthy_Some _ _ Hp Hpne), He, Hp.
    unfold try_catch, query_user. run_simpl. rewrite run_bind. run_simpl.
    rewrite Hrun. run_simpl. rewrite Hok.
    rewrite (truthy_Some _ _ Hh Hhne), Hh. run_simpl. rewrite Hcmp.
    unfold emit, send. run_simpl. rewrite Hn. right. left. reflexivity.
  - intros req' cs Hhd Hcs Hc.
    assert (Hct : cookie_token W req' = Some tok).
    { unfold cookie_token, cookie_key. rewrite Hcs, Hn. exact Hc. }
    split.
    + intros next.
      assert (Ht : Index.token W req' = Some tok).
      { unfold Index.token. rewrite (headerToken_absent _ Hhd). exact Hct. }
      rewrite (authenticateToken_with_token W req' next tok Ht Htok), Hv. reflexivity.
    + intros d0. unfold trace, Index.me.
      rewrite Hct, (truthy_Some _ _ eq_refl Htok). run_simpl.
      unfold try_catch, emit, query_user. rewrite run_bind. run_simpl. rewrite Hv.
      rewrite run_bind. run_simpl.
      destruct (run_user (store W) (SelectUserById (user_id u)) d0) as [[dt er] d1].
      run_simpl. unfold send.
      destruct er, dt; run_simpl; eexists; reflexivity.
Qed.

Lemma session_round_trip_witness :
  let W := Session_example.W in
  let login := Login_example.attempt "alice@example.com" "wonderland" in
  let later := Session_example.with_cookie "good" in
  In (ECookie (Some "token") "good" {| sameSite := "lax"; secure := false |})
     (trace (Index.login W login) Session_example.table)
  /\ trace (Index.post_posts W later) Session_example.table
     = [EVerify "good"; ESend 400 (message "title and body are required")]
  /\ trace (Index.me W later) Session_example.table
     = [EVerify "good"; EUserQuery (SelectUserById 1);
        ESend 200 (JObj [("user", JObj [("id", JNum 1); ("name", JStr "Alice");
                                        ("email", JStr "alice@example.com");
                                        ("created_at", JStr "2025-01-03");
                                        ("profile_picture", JNull)])])].
Proof.
  intros W login later.
  destruct (session_round_trip W login Session_example.table
              "alice@example.com" "wonderland" "$2b$10$wonderland" "token"
              (found Session_example.alice) Session_example.table Session_example.alice)
    as [_ Hlater];
    try first [ discriminate | vm_compute; reflexivity ].
  destruct (Hlater later {[ "token" := "good" ]}) as [Hmid _];
    try (vm_compute; reflexivity).
  split; [vm_compute; auto|]. split.
  - unfold Index.post_posts. rewrite Hmid. vm_compute. reflexivity.
  - vm_compute. reflexivity.
Defined.

(** ** GET /auth/me *)

(** X10. /auth/me reads the token from the cookie only: the headers of the
    request make no difference, and a request without the cookie, or with
    an empty one, is answered 401 with [user: null], the marker [no_cookie]
    and the names of the cookies it did carry, in the order in which
    [req.cookies] holds them, without a call of [jwt.verify] or a
    query. *)
Theorem me_needs_the_cookie {db} (W : World db) (req : request) (d : db) :
  (forall h, Index.me W (Example_world.with_headers h req) = Index.me W req)
  /\ (JS.truthy (cookie_token W req) = false ->
      Index.me W req (start d)
      = (Returned tt,
         {| st_db := d;
            st_log := [ESend 401
                         (JObj [("user", JNull); ("debug", JStr "no_cookie");
                                ("availableCookies",
                                 JArr (JStr <$> cookie_names req))])]
         |})).
Proof.
  split; [reflexivity|].
  intros H. unfold Index.me. rewrite H. reflexivity.
Qed.

Lemma me_needs_the_cookie_witness :
  let req := Example_world.with_cookie_list [("zeta", "1"); ("alpha", "2")]
               (Example_world.with_headers (Example_world.bearer "good")
                  Example_world.request0) in
  trace (Index.me Session_example.W req) Session_example.table
  = [ESend 401 (JObj [("user", JNull); ("debug", JStr "no_cookie");
                      ("availableCookies", JArr [JStr "zeta"; JStr "alpha"])])].
Proof.
  intros req. unfold trace.
  rewrite (proj2 (me_needs_the_cookie Session_example.W req Session_example.table));
    [reflexivity | vm_compute; reflexivity].
Defined.

(** X11. When the cookie holds a token that [jwt.verify] rejects, /auth/me
    answers 401 with [user: null], the marker [token_invalid] and the
    message of the verification error, and makes no query. *)
Theorem me_invalid_token {db} (W : World db) (req : request) (d : db) (t msg : string) :
  cookie_token W req = Some t -> t <> EmptyString -> jwt_verify W t = inr msg ->
  Index.me W req (start d)
  = (Returned tt,
     {| st_db := d;
        st_log := [EVerify t;
                   ESend 401 (JObj [("user", JNull); ("debug", JStr "token_invalid");
                                    ("error", JStr msg)])] |}).
Proof.
  intros Hc Hne Hv. unfold Index.me.
  rewrite (truthy_Some _ _ Hc Hne), Hc. run_simpl.
  unfold try_catch, emit, throw, send. rewrite run_bind. run_simpl. rewrite Hv.
  reflexivity.
Qed.

Lemma me_invalid_token_witness :
  trace (Index.me Session_example.W (Session_example.with_cookie "forged"))
    Session_example.table
  = [EVerify "forged";
     ESend 401 (JObj [("user", JNull); ("debug", JStr "token_invalid");
                      ("error", JStr "jwt malformed")])].
Proof.
  unfold trace.
  rewrite (me_invalid_token Session_example.W (Session_example.with_cookie "forged")
             Session_example.table "forged" "jwt malformed");
    first [ reflexivity | discriminate ].
Defined.

(** X12. With a verified cookie token, /auth/me looks the user up by the id
    of the token.  A row without error is answered 200 with id, name,
    email, creation time and profile picture.  Anything else, a token whose
    user is gone included, is answered 401 with [user: null], the marker
    [user_not_found] and the message of the store error when there is
    one. *)
Theorem me_lookup {db} (W : World db) (req : request) (d : db) (t : string) (c : claims)
    (r : reply user_row) (d' : db) :
  cookie_token W req = Some t -> t <> EmptyString -> jwt_verify W t = inl c ->
  run_user (store W) (SelectUserById (claim_id c)) d = (r, d') ->
  Index.me W req (start d)
  = (Returned tt,
     {| st_db := d';
        st_log :=
          [EVerify t; EUserQuery (SelectUserById (claim_id c));
           match ok_row r with
           | Some u =>
               ESend 200 (JObj [("user", JObj [("id", JNum (user_id u));
                                               ("name", JStr (user_name u));
                                               ("email", JStr (user_email u));
                                               ("created_at", JStr (user_created_at u));
                                               ("profile_picture",
                                                jopt JStr (user_profile_picture u))])])
           | None =>
               ESend 401 (JObj ([("user", JNull); ("debug", JStr "user_not_found")]
                                ++ match error r with
                                   | Some e => [("error", JStr (err_message e))]
                                   | None => []
                                   end))
           end] |}).
Proof.
  intros Hc Hne Hv Hrun. unfold Index.me.
  rewrite (truthy_Some _ _ Hc Hne), Hc. run_simpl.
  unfold try_catch, emit, query_user, send, ok_row.
  rewrite run_bind. run_simpl. rewrite Hv. rewrite run_bind. run_simpl.
  rewrite Hrun. run_simpl.
  destruct (error r), (data r); reflexivity.
Qed.

Lemma me_lookup_witness :
  let W := Session_example.W in
  let req := Session_example.with_cookie "good" in
  trace (Index.me W req) Session_example.table
  = [EVerify "good"; EUserQuery (SelectUserById 1);
     ESend 200 (JObj [("user", JObj [("id", JNum 1); ("name", JStr "Alice");
                                     ("email", JStr "alice@example.com");
                                     ("created_at", JStr "2025-01-03");
                                     ("profile_picture", JNull)])])]
  /\ trace (Index.me W req) []
     = [EVerify "good"; EUserQuery (SelectUserById 1);
        ESend 401 (JObj [("user", JNull); ("debug", JStr "user_not_found");
                         ("error", JStr (err_message no_rows))])].
Proof.
  intros W req. unfold trace. split.
  - rewrite (me_lookup W req Session_example.table "good" Example_world.alice_claims
               (found Session_example.alice) Session_example.table);
      first [ reflexivity | discriminate ].
  - rewrite (me_lookup W req [] "good" Example_world.alice_claims (failed no_rows) []);
      first [ reflexivity | discriminate ].
Defined.

(** ** The middleware, the cases the claims leave out *)

Lemma split_at_space (w rest : string) :
  (forall c, In c (list_ascii_of_string w) -> c <> " "%char) ->
  JS.split " " (w ++ String " " rest) = w :: JS.split " " rest.
Proof.
  induction w as [|c w IH]; intros H; [reflexivity|].
  change (JS.split " " (String c (w ++ String " " rest))
          = String c w :: JS.split " " rest).
  simpl. destruct (Ascii.eqb_spec c " ") as [->|_].
  - exfalso. apply (H " "%char); [left; reflexivity | reflexivity].
  - rewrite IH; [reflexivity|]. intros c' Hc'. apply H. right. exact Hc'.
Qed.

(** X13. The middleware does not look at the scheme of the Authorization
    header: whatever stands before the first space, [Bearer] or not, the
    word after it is the token, and it wins over the cookie. *)
Theorem scheme_not_checked {db} (W : World db) (req : request) (scheme t : string) :
  headers req !! "authorization" = Some (scheme ++ " " ++ t) ->
  (forall c, In c (list_ascii_of_string scheme) -> c <> " "%char) ->
  (forall c, In c (list_ascii_of_string t) -> c <> " "%char) ->
  t <> EmptyString ->
  Index.token W req = Some t
  /\ forall next, Index.authenticateToken W req next
                  = (emit (EVerify t);;
                     match jwt_verify W t with
                     | inl decoded => next (with_user req decoded)
                     | inr _ => send 401 (message "Invalid token")
                     end).
Proof.
  intros Hh Hs Ht Hne.
  assert (Hhead : Index.headerToken req = Some t).
  { unfold Index.headerToken, Index.authHeader. rewrite Hh.
    assert (Htr : JS.truthy (Some (scheme ++ " " ++ t)) = true).
    { eapply truthy_Some; [reflexivity | apply append_nonempty]. }
    unfold JS.or. rewrite Htr. cbn [default]. unfold id. rewrite Htr.
    change (scheme ++ " " ++ t)%string with (scheme ++ String " " t)%string.
    rewrite (split_at_space scheme t Hs), (split_no_space t Ht). reflexivity. }
  assert (Htok : Index.token W req = Some t).
  { unfold Index.token, JS.or. rewrite (truthy_Some _ _ Hhead Hne). exact Hhead. }
  split; [exact Htok|].
  intros next. apply authenticateToken_with_token; assumption.
Qed.

Lemma scheme_not_checked_witness :
  let req := Example_world.with_cookies {[ "token" := "good" ]}
               (Example_world.with_headers {[ "authorization" := "Basic forged" ]}
                  Example_world.request0) in
  trace (Index.post_posts Session_example.W req) Session_example.table
  = [EVerify "forged"; ESend 401 (message "Invalid token")].
Proof.
  intros req.
  destruct (scheme_not_checked Session_example.W req "Basic" "forged") as [_ H].
  - reflexivity.
  - intros c Hc. vm_compute in Hc. intuition (subst; discriminate).
  - intros c Hc. vm_compute in Hc. intuition (subst; discriminate).
  - discriminate.
  - unfold Index.post_posts. rewrite H. reflexivity.
Defined.

(** X14. The cookie is the fallback: when there is no Authorization header,
    when the header is a single word with no space, or when nothing follows
    its first space, the token is the one of the cookie. *)
Theorem cookie_fallback {db} (W : World db) (req : request) :
  (headers req !! "authorization" = None
   \/ (exists w, headers req !! "authorization" = Some w
                 /\ forall c, In c (list_ascii_of_string w) -> c <> " "%char)
   \/ (exists w, headers req !! "authorization" = Some (w ++ " ")
                 /\ forall c, In c (list_ascii_of_string w) -> c <> " "%char)) ->
  Index.token W req = cookie_token W req.
Proof.
  intros [H | [(w & H & Hw) | (w & H & Hw)]]; unfold Index.token.
  - rewrite (headerToken_absent _ H). reflexivity.
  - destruct w as [|c w].
    + assert (Hhead : Index.headerToken req = Some EmptyString).
      { unfold Index.headerToken, Index.authHeader. rewrite H. reflexivity. }
      rewrite Hhead. reflexivity.
    + assert (Hhead : Index.headerToken req = None).
      { unfold Index.headerToken, Index.authHeader. rewrite H.
        assert (Htr : JS.truthy (Some (String c w)) = true) by reflexivity.
        unfold JS.or. rewrite Htr. cbn [default]. unfold id. rewrite Htr.
        rewrite (split_no_space _ Hw). reflexivity. }
      rewrite Hhead. reflexivity.
  - assert (Hhead : Index.headerToken req = Some EmptyString).
    { unfold Index.headerToken, Index.authHeader. rewrite H.
      assert (Htr : JS.truthy (Some (w ++ " ")) = true).
      { eapply truthy_Some; [reflexivity | apply append_nonempty]. }
      unfold JS.or. rewrite Htr. cbn [default]. unfold id. rewrite Htr.
      change (w ++ " ")%string with (w ++ String " " EmptyString)%string.
      rewrite (split_at_space w EmptyString Hw). reflexivity. }
    rewrite Hhead. reflexivity.
Qed.

Lemma cookie_fallback_witness :
  let bare := Example_world.with_cookies {[ "token" := "good" ]}
                (Example_world.with_headers {[ "authorization" := "Bearer" ]}
                   Example_world.request0) in
  Index.token Session_example.W bare = Some "good".
Proof.
  intros bare.
  rewrite (cookie_fallback Session_example.W bare); [reflexivity|].
  right. left. exists "Bearer". split; [reflexivity|].
  intros c Hc. vm_compute in Hc. intuition (subst; discriminate).
Defined.

(** ** POST /auth/logout *)

(** X15. Logout needs no token and makes no query: it sets the session
    cookie to the empty value and answers 200.  A later request that
    carries the cookie with that empty value, and no Authorization header,
    has no session: the middleware answers 401 "Invalid or no token found"
    without a call of [jwt.verify], and /auth/me answers 401. *)
Theorem cleared_cookie_is_no_session {db} (W : World db) (req : request) (d : db)
    (n : string) :
  COOKIE_NAME (env W) = Some n ->
  Index.logout W req (start d)
  = (Returned tt,
     {| st_db := d;
        st_log := [ECookie (Some n) EmptyString {| sameSite := "lax"; secure := false |};
                   ESend 200 (message "logout successful")] |})
  /\ forall (req' : request) (cs : gmap string string) (d0 : db),
       headers req' !! "authorization" = None ->
       cookies req' = Some cs -> cs !! n = Some EmptyString ->
       (forall next,
           Index.authenticateToken W req' next (start d0)
           = (Returned tt,
              {| st_db := d0;
                 st_log := [ESend 401 (message "Invalid or no token found")] |}))
       /\ answered_ok (trace (Index.me W req') d0) = false
       /\ existsb is_verify (trace (Index.me W req') d0) = false.
Proof.
  intros Hn. split.
  - unfold Index.logout. rewrite Hn. reflexivity.
  - intros req' cs d0 Hh Hcs Hc.
    assert (Hct : cookie_token W req' = Some EmptyString).
    { unfold cookie_token, cookie_key. rewrite Hcs, Hn. exact Hc. }
    split; [|split].
    + intros next. unfold Index.authenticateToken, Index.token.
      rewrite (headerToken_absent _ Hh), Hct. reflexivity.
    + unfold trace, Index.me. rewrite Hct. reflexivity.
    + unfold trace, Index.me. rewrite Hct. reflexivity.
Qed.

Lemma cleared_cookie_is_no_session_witness :
  let W := Session_example.W in
  let cleared := Session_example.with_cookie EmptyString in
  trace (Index.logout W Example_world.request0) Session_example.table
  = [ECookie (Some "token") EmptyString {| sameSite := "lax"; secure := false |};
     ESend 200 (message "logout successful")]
  /\ trace (Index.delete_posts_id W cleared) Session_example.table
     = [ESend 401 (message "Invalid or no token found")].
Proof.
  intros W cleared.
  destruct (cleared_cookie_is_no_session W Example_world.request0 Session_example.table
              "token") as [Hout Hlater]; [reflexivity|].
  split.
  - unfold trace. rewrite Hout. reflexivity.
  - destruct (Hlater cleared {[ "token" := EmptyString ]} Session_example.table)
      as [Hmid _]; [reflexivity | reflexivity | vm_compute; reflexivity |].
    unfold trace, Index.delete_posts_id. rewrite Hmid. reflexivity.
Defined.

(** ** The guarded routes *)

(** X16. POST /posts behind the middleware: a post is inserted under the id
    of the verified token, whatever else the request says, with one query;
    the answer is 201 with the row when the store reports no error and 500
    with the error of the store otherwise. *)
Theorem created_post_belongs_to_caller {db} (W : World db) (req : request) (d : db)
    (t title body_ : string) (c : claims) (r : reply post_row) (d' : db) :
  Index.token W req = Some t -> t <> EmptyString -> jwt_verify W t = inl c ->
  body req !! "title" = Some title -> title <> EmptyString ->
  body req !! "body" = Some body_ -> body_ <> EmptyString ->
  run_post (store W) (InsertPost title body_ (claim_id c)) d = (r, d') ->
  Index.post_posts W req (start d)
  = (Returned tt,
     {| st_db := d';
        st_log := [EVerify t; EPostQuery (InsertPost title body_ (claim_id c));
                   match error r with
                   | Some e => ESend 500 (JObj [("message", JStr "error creating post");
                                                ("error", json_of_error e)])
                   | None => ESend 201 (JObj [("message", JStr "post created successfully");
                                              ("post", jopt json_of_post (data r))])
                   end] |}).
Proof.
  intros Ht Hne Hv Hti Htine Hb Hbne Hrun.
  unfold Index.post_posts.
  rewrite (authenticateToken_with_token W req _ t Ht Hne), Hv.
  unfold Index.create_post, Index.req_user_id, with_user. cbn [body user].
  rewrite (truthy_Some _ _ Hti Htine), (truthy_Some _ _ Hb Hbne), Hti, Hb.
  run_with Hrun. destruct (error r); reflexivity.
Qed.

Lemma created_post_belongs_to_caller_witness :
  let W := Example_world.world Scripted.store in
  let req := Session_example.authed {[ "title" := "Hello"; "body" := "World";
                                       "user_id" := "42" ]} in
  let row := {| post_id := 5; post_title := "Hello"; post_body := "World";
                post_user_id := 1; post_created_at := "now"; post_Users := None |} in
  trace (Index.post_posts W req) (Scripted.posts [found row])
  = [EVerify "good"; EPostQuery (InsertPost "Hello" "World" 1);
     ESend 201 (JObj [("message", JStr "post created successfully");
                      ("post", json_of_post row)])].
Proof.
  intros W req row. unfold trace.
  rewrite (created_post_belongs_to_caller W req (Scripted.posts [found row])
             "good" "Hello" "World" Example_world.alice_claims (found row)
             (Scripted.posts []));
    first [ discriminate | vm_compute; reflexivity ].
Defined.

(** X17. PUT and DELETE /posts/:id behind the middleware make exactly one
    query, whatever the store replies, and it is the update or the delete
    filtered on the id of the path and on the id of the verified token. *)
Theorem mutations_filter_on_caller {db} (W : World db) (req : request) (d : db)
    (t : string) (c : claims) :
  Index.token W req = Some t -> t <> EmptyString -> jwt_verify W t = inl c ->
  queries (trace (Index.delete_posts_id W req) d)
  = [EPostQuery (DeletePost (params_id req) (claim_id c) false)]
  /\ forall title body_,
       body req !! "title" = Some title -> title <> EmptyString ->
       body req !! "body" = Some body_ -> body_ <> EmptyString ->
       queries (trace (Index.put_posts_id W req) d)
       = [EPostQuery (UpdatePost (params_id req) (claim_id c) title body_)].
Proof.
  intros Ht Hne Hv. split.
  - unfold Index.delete_posts_id.
    rewrite (authenticateToken_with_token W req _ t Ht Hne), Hv.
    unfold Index.delete_post, Index.req_user_id, with_user. cbn [body user params_id].
    run_handler; reflexivity.
  - intros title body_ Hti Htine Hb Hbne.
    unfold Index.put_posts_id.
    rewrite (authenticateToken_with_token W req _ t Ht Hne), Hv.
    unfold Index.update_post, Index.update_post_try, Index.req_user_id, with_user.
    cbn [body user params_id].
    rewrite (truthy_Some _ _ Hti Htine), (truthy_Some _ _ Hb Hbne), Hti, Hb.
    run_handler; reflexivity.
Qed.

Lemma mutations_filter_on_caller_witness :
  let W := Example_world.world Scripted.store in
  let req := Example_world.with_id "12"
               (Session_example.authed {[ "title" := "t"; "body" := "b" ]}) in
  queries (trace (Index.delete_posts_id W req) (Scripted.posts []))
  = [EPostQuery (DeletePost "12" 1 false)]
  /\ queries (trace (Index.put_posts_id W req) (Scripted.posts []))
     = [EPostQuery (UpdatePost "12" 1 "t" "b")].
Proof.
  intros W req.
  destruct (mutations_filter_on_caller W req (Scripted.posts []) "good"
              Example_world.alice_claims) as [Hdel Hput];
    try first [ discriminate | vm_compute; reflexivity ].
  split; [exact Hdel|].
  apply Hput; first [ discriminate | vm_compute; reflexivity ].
Defined.

(** X18. On POST /posts and PUT /posts/:id the body is checked after the
    token: an authenticated request without title or without body (absent
    or empty) is answered 400 "title and body are required" and makes no
    query. *)
Theorem validation_after_authentication {db} (W : World db) (req : request) (d : db)
    (t : string) (c : claims) :
  Index.token W req = Some t -> t <> EmptyString -> jwt_verify W t = inl c ->
  JS.truthy (body req !! "title") = false \/ JS.truthy (body req !! "body") = false ->
  let rejected :=
    (Returned tt,
     {| st_db := d;
        st_log := [EVerify t; ESend 400 (message "title and body are required")] |}) in
  Index.post_posts W req (start d) = rejected
  /\ Index.put_posts_id W req (start d) = rejected.
Proof.
  intros Ht Hne Hv H rejected. subst rejected.
  assert (E : negb (JS.truthy (body req !! "title"))
              || negb (JS.truthy (body req !! "body")) = true).
  { destruct H as [-> | ->]; [reflexivity | apply orb_true_r]. }
  unfold Index.post_posts, Index.put_posts_id.
  rewrite !(authenticateToken_with_token W req _ t Ht Hne), Hv.
  unfold Index.create_post, Index.update_post, with_user. cbn [body].
  rewrite E. split; reflexivity.
Qed.

Lemma validation_after_authentication_witness :
  let W := Example_world.world Scripted.store in
  let req := Session_example.authed {[ "title" := "only a title" ]} in
  trace (Index.post_posts W req) (Scripted.posts [])
  = [EVerify "good"; ESend 400 (message "title and body are required")]
  /\ trace (Index.put_posts_id W req) (Scripted.posts [])
     = [EVerify "good"; ESend 400 (message "title and body are required")].
Proof.
  intros W req.
  destruct (validation_after_authentication W req (Scripted.posts []) "good"
              Example_world.alice_claims) as [H1 H2];
    try first [ discriminate | vm_compute; reflexivity | right; vm_compute; reflexivity ].
  unfold trace. rewrite H1, H2. split; reflexivity.
Defined.

(** ** GET /posts, the cases the claims leave out *)

(** X19. When the store reports an error for the listing, GET /posts answers
    500 with the message "error fetching posts" and the error object of the
    store, after that one query. *)
Theorem get_posts_store_error {db} (W : World db) (req : request) (d : db)
    (r : list_reply) (d' : db) (e : pg_error) :
  run_list (store W) (Index.posts_query req) d = (r, d') -> l_error r = Some e ->
  Index.get_posts W req (start d)
  = (Returned tt,
     {| st_db := d';
        st_log := [EListQuery (Index.posts_query req);
                   ESend 500 (JObj [("message", JStr "error fetching posts");
                                    ("error", json_of_error e)])] |}).
Proof.
  intros Hrun He. unfold Index.get_posts. run_with Hrun. rewrite He. reflexivity.
Qed.

Lemma get_posts_store_error_witness :
  trace (Index.get_posts (Example_world.world Scripted.store) Example_world.request0)
    (Scripted.lists [])
  = [EListQuery {| lq_pattern := None; lq_start := 0; lq_end := 9 |};
     ESend 500 (JObj [("message", JStr "error fetching posts");
                      ("error", json_of_error no_rows)])].
Proof.
  unfold trace.
  rewrite (get_posts_store_error (Example_world.world Scripted.store)
             Example_world.request0 (Scripted.lists [])
             {| l_data := None; l_count := None; l_error := Some no_rows |}
             (Scripted.lists []) no_rows);
    reflexivity.
Defined.

(** X20. When the limit of the query string is absent, unparsable, 0 or
    positive, and the page is 2^45 at most, so that nothing is rounded, the
    range asked of the store is well formed: the limit is between 1 and
    100, the range starts at 0 or later and spans exactly [limit] rows; and
    for a count from 0 to below 2^53, [totalPages] is not negative and is 0
    exactly when the count is 0. *)
Theorem range_well_formed (req : request) (p count : Z) :
  match JS.parseInt (query req !! "limit") with
  | JS.Fin l => 0 <= l
  | JS.Inf true => False
  | _ => True
  end ->
  Index.page_of req = JS.Fin p -> p <= 2 ^ 45 ->
  0 <= count < 2 ^ 53 ->
  let q := Index.posts_query req in
  exists l s e tp,
    Index.limit_of req = JS.Fin l /\ 1 <= l <= 100
    /\ lq_start q = JS.Fin s /\ lq_end q = JS.Fin e
    /\ 0 <= s <= e /\ e - s + 1 = l
    /\ JS.ceil_quot (JS.Fin count) (Index.limit_of req) = JS.Fin tp
    /\ 0 <= tp /\ (tp = 0 <-> count = 0).
Proof.
  intros Hparse Hp Hpb Hc q.
  assert (Hl : exists l, Index.limit_of req = JS.Fin l /\ 1 <= l <= 100).
  { rewrite limit_of_clamped.
    destruct (JS.parseInt (query req !! "limit")) as [|[]|[|z|z]];
      try contradiction; try lia; eexists; (split; [reflexivity | lia]). }
  destruct Hl as (l & Hl & Hlb).
  pose proof (page_of_at_least_one req p Hp) as Hp1.
  assert (H45 : 2 ^ 45 * 100 + 101 < 2 ^ 53) by reflexivity.
  assert (H53 : 0 < 2 ^ 45) by reflexivity.
  destruct (range_exact req p l Hp Hl ltac:(nia)) as [Hs He].
  destruct (limit_of_finite req l Hl) as (_ & Hl0 & Hlfin).
  pose proof (ceil_quot_exact count l ltac:(lia) Hl0 Hlfin) as Htp.
  pose proof (ceil_div_pos count l ltac:(lia)) as Hceil.
  exists l, ((p - 1) * l), ((p - 1) * l + l - 1), (JS.ceil_div count l).
  rewrite Hl in *. subst q.
  repeat split; try assumption; try nia.
Qed.

Lemma range_well_formed_witness :
  let req := Example_world.with_query {[ "page" := "3"; "limit" := "20" ]}
               Example_world.request0 in
  Index.posts_query req = {| lq_pattern := None; lq_start := 40; lq_end := 59 |}
  /\ JS.ceil_quot 41 (Index.limit_of req) = 3.
Proof.
  intros req.
  destruct (range_well_formed req 3 41) as (l & s & e & tp & _);
    [vm_compute; discriminate | vm_compute; reflexivity | vm_compute; discriminate
    | split; [lia | reflexivity] |].
  split; vm_compute; reflexivity.
Defined.

(** X21. A negative limit is not raised: [Math.min((1, limit), 100)] leaves
    it as it is.  While nothing is rounded, the range asked of the store
    then ends before it starts, and for a positive count below 2^53
    [totalPages] is 0 or negative. *)
Theorem negative_limit_passes_through (req : request) (l p count : Z) :
  JS.parseInt (query req !! "limit") = JS.Fin l -> l < 0 ->
  Index.page_of req = JS.Fin p -> (p - 1) * (- l) - l + 1 < 2 ^ 53 ->
  0 < count < 2 ^ 53 ->
  Index.limit_of req = JS.Fin l
  /\ exists s e tp,
       lq_start (Index.posts_query req) = JS.Fin s
       /\ lq_end (Index.posts_query req) = JS.Fin e
       /\ e < s
       /\ JS.ceil_quot (JS.Fin count) (Index.limit_of req) = JS.Fin tp
       /\ tp <= 0.
Proof.
  intros Hparse Hl Hp Hsafe Hc.
  assert (E : Index.limit_of req = JS.Fin l).
  { rewrite limit_of_clamped, Hparse. destruct l; [lia | lia | reflexivity]. }
  split; [exact E|].
  pose proof (page_of_at_least_one req p Hp) as Hp1.
  destruct (range_exact req p l Hp E ltac:(nia)) as [Hs He].
  destruct (limit_of_finite req l E) as (_ & Hl0 & Hlfin).
  exists ((p - 1) * l), ((p - 1) * l + l - 1), (JS.ceil_div count l).
  rewrite E. split; [exact Hs|]. split; [exact He|]. split; [lia|].
  split; [apply ceil_quot_exact; lia|].
  pose proof (ceil_div_neg count l Hl). nia.
Qed.

Lemma negative_limit_passes_through_witness :
  let req := Example_world.with_query {[ "limit" := "-5" ]} Example_world.request0 in
  Index.limit_of req = -5
  /\ Index.posts_query req = {| lq_pattern := None; lq_start := 0; lq_end := -6 |}.
Proof.
  intros req.
  destruct (negative_limit_passes_through req (-5) 1 7) as (H1 & _);
    [vm_compute; reflexivity | lia | vm_compute; reflexivity | reflexivity
    | split; reflexivity |].
  split; [exact H1 | vm_compute; reflexivity].
Defined.

(** ** index.js against test-server.js *)

(** X22. When the store reports no error and returns no row, the handlers
    of index.js report success: DELETE answers 200 "post deleted
    successfully" with [post: null] and PUT answers 200 with
    [updatedPost: null]; the handlers of test-server.js answer 400 to the
    same replies. *)
Theorem success_reported_without_row {db} (W : World db) (req : request) (d : db)
    (c : claims) (nothing : reply post_row) :
  user req = Some c -> data nothing = None -> error nothing = None ->
  (forall returning d',
      run_post (store W) (DeletePost (params_id req) (claim_id c) returning) d
      = (nothing, d') ->
      (returning = false ->
       response_of (trace (Index.delete_post W req) d)
       = Some (200, JObj [("message", JStr "post deleted successfully");
                          ("post", JNull)]))
      /\ (returning = true ->
          response_of (trace (TestServer.delete_post W req) d)
          = Some (400, message "not authorized to delete this post or post not found")))
  /\ (forall title body_ d',
        body req !! "title" = Some title -> title <> EmptyString ->
        body req !! "body" = Some body_ -> body_ <> EmptyString ->
        run_post (store W) (UpdatePost (params_id req) (claim_id c) title body_) d
        = (nothing, d') ->
        response_of (trace (Index.update_post W req) d)
        = Some (200, JObj [("updatedPost", JNull)])
        /\ response_of (trace (TestServer.update_post W req) d)
           = Some (400, message "Not authorized to update this post or post not found")).
Proof.
  intros Hu Hd He. split.
  - intros returning d' Hrun. split; intros ->.
    + unfold Index.delete_post, Index.req_user_id. rewrite Hu.
      run_with Hrun. rewrite He, Hd. reflexivity.
    + unfold TestServer.delete_post, Index.req_user_id. rewrite Hu.
      run_with Hrun. rewrite He, Hd. reflexivity.
  - intros title body_ d' Hti Htine Hb Hbne Hrun. split.
    + unfold Index.update_post, Index.update_post_try, Index.req_user_id.
      rewrite (truthy_Some _ _ Hti Htine), (truthy_Some _ _ Hb Hbne), Hu, Hti, Hb.
      run_with Hrun. rewrite He, Hd. reflexivity.
    + unfold TestServer.update_post, Index.req_user_id.
      rewrite (truthy_Some _ _ Hti Htine), (truthy_Some _ _ Hb Hbne), Hu, Hti, Hb.
      run_with Hrun. rewrite He, Hd. reflexivity.
Qed.

Lemma success_reported_without_row_witness :
  let W := Example_world.world Scripted.store in
  let req := with_user (Example_world.with_body {[ "title" := "t"; "body" := "b" ]}
                          Example_world.request0) Example_world.alice_claims in
  let nothing := {| data := None; error := None |} in
  response_of (trace (Index.delete_post W req) (Scripted.posts [nothing]))
  = Some (200, JObj [("message", JStr "post deleted successfully"); ("post", JNull)])
  /\ response_of (trace (Index.update_post W req) (Scripted.posts [nothing]))
     = Some (200, JObj [("updatedPost", JNull)]).
Proof.
  intros W req nothing.
  destruct (success_reported_without_row W req (Scripted.posts [nothing])
              Example_world.alice_claims nothing) as [Hdel Hput];
    [reflexivity | reflexivity | reflexivity |].
  split.
  - apply (proj1 (Hdel false (Scripted.posts []) eq_refl)). reflexivity.
  - apply (proj1 (Hput "t" "b" (Scripted.posts [])
                    ltac:(vm_compute; reflexivity) ltac:(discriminate)
                    ltac:(vm_compute; reflexivity) ltac:(discriminate) eq_refl)).
Defined.

(** X23. When the update returns a row and no error, the PUT handlers of
    index.js and of test-server.js do the same: one query, then 200 with
    the row. *)
Theorem update_agrees_on_success {db} (W : World db) (req : request) (d : db)
    (c : claims) (title body_ : string) (r : reply post_row) (d' : db)
    (updatedPost : post_row) :
  user req = Some c ->
  body req !! "title" = Some title -> title <> EmptyString ->
  body req !! "body" = Some body_ -> body_ <> EmptyString ->
  run_post (store W) (UpdatePost (params_id req) (claim_id c) title body_) d = (r, d') ->
  error r = None -> data r = Some updatedPost ->
  Index.update_post W req (start d) = TestServer.update_post W req (start d)
  /\ Index.update_post W req (start d)
     = (Returned tt,
        {| st_db := d';
           st_log := [EPostQuery (UpdatePost (params_id req) (claim_id c) title body_);
                      ESend 200 (JObj [("updatedPost", json_of_post updatedPost)])] |}).
Proof.
  intros Hu Hti Htine Hb Hbne Hrun He Hd.
  unfold Index.update_post, Index.update_post_try, TestServer.update_post,
    Index.req_user_id.
  rewrite (truthy_Some _ _ Hti Htine), (truthy_Some _ _ Hb Hbne), Hu, Hti, Hb.
  split; run_with Hrun; rewrite He, Hd; reflexivity.
Qed.

Lemma update_agrees_on_success_witness :
  let W := Example_world.world Scripted.store in
  let req := with_user (Example_world.with_body {[ "title" := "t"; "body" := "b" ]}
                          Example_world.request0) Example_world.alice_claims in
  let row := {| post_id := 1; post_title := "t"; post_body := "b";
                post_user_id := 1; post_created_at := "now"; post_Users := None |} in
  Index.update_post W req (start (Scripted.posts [found row]))
  = TestServer.update_post W req (start (Scripted.posts [found row])).
Proof.
  intros W req row.
  apply (update_agrees_on_success W req (Scripted.posts [found row])
           Example_world.alice_claims "t" "b" (found row) (Scripted.posts []) row);
    first [ discriminate | vm_compute; reflexivity ].
Defined.



(** ** The Google verify callback, the cases the claims leave out *)

(** X25. The callback always ends by a call of [done], never by an
    exception, and [done] gets either an error and no user or a user and no
    error, whatever the profile and whatever the store replies. *)
Theorem verify_done_is_exclusive {db} (W : World db) (p : Passport.profile) (d : db) :
  done_is_exclusive (result (Passport.verify W p) d) = true.
Proof.
  destruct (JS.truthy (Passport.email_of p)) eqn:E.
  - destruct (truthy_inv _ E) as (e & He & Hne).
    rewrite (verify_with_email W p e He Hne). run_handler; reflexivity.
  - unfold result. rewrite (missing_email_reported W p d E). reflexivity.
Qed.

(** X26. The callback makes at most three queries, at most one of them an
    insert, and never inserts a password: an account it creates can only
    sign in with Google. *)
Theorem verify_queries_bounded {db} (W : World db) (p : Passport.profile) (d : db) :
  let qs := queries (trace (Passport.verify W p) d) in
  Nat.leb (length qs) 3 = true
  /\ Nat.leb (length (List.filter is_insert qs)) 1 = true
  /\ existsb inserts_password qs = false.
Proof.
  destruct (JS.truthy (Passport.email_of p)) eqn:E.
  - destruct (truthy_inv _ E) as (e & He & Hne).
    rewrite (verify_with_email W p e He Hne). run_handler; repeat split.
  - unfold trace. rewrite (missing_email_reported W p d E). repeat split.
Qed.

(** X27. When the insert fails with a code other than 23505, the callback
    does not look the email up again: it reports the error of the insert
    after two queries. *)
Theorem other_insert_error_not_retried {db} (W : World db) (p : Passport.profile) (d : db)
    (e : string) (r1 r2 : reply user_row) (d1 d2 : db) (createError : pg_error) :
  Passport.email_of p = Some e -> e <> EmptyString ->
  let ins := InsertUser (JS.trim (default EmptyString (Passport.name_of p)))
               (JS.trim (JS.toLowerCase e)) None in
  run_user (store W) (SelectUserByEmail e) d = (r1, d1) -> ok_row r1 = None ->
  run_user (store W) ins d1 = (r2, d2) ->
  error r2 = Some createError -> err_code createError <> "23505" ->
  Passport.verify W p (start d)
  = (Returned (Passport.Done (Some (Passport.StoreError createError)) None),
     {| st_db := d2;
        st_log := [EUserQuery (SelectUserByEmail e); EUserQuery ins] |}).
Proof.
  intros He Hne ins H1 Hok1 H2 Herr Hcode. subst ins.
  rewrite (verify_with_email W p e He Hne).
  unfold try_catch, query_user. run_simpl. rewrite run_bind. run_simpl.
  rewrite H1. run_simpl. rewrite Hok1. rewrite run_bind. run_simpl.
  rewrite H2. run_simpl. rewrite Herr.
  destruct (String.eqb_spec (err_code createError) "23505") as [Heq|_];
    [contradiction | reflexivity].
Qed.

Lemma other_insert_error_not_retried_witness :
  let W := Example_world.world Scripted.store in
  Passport.verify W Oauth_example.grace
    (start (Scripted.users [failed no_rows; failed Oauth_example.timeout]))
  = (Returned (Passport.Done (Some (Passport.StoreError Oauth_example.timeout)) None),
     {| st_db := Scripted.users [];
        st_log := [EUserQuery (SelectUserByEmail "grace@example.com");
                   EUserQuery (InsertUser "Grace" "grace@example.com" None)] |}).
Proof.
  intros W.
  apply (other_insert_error_not_retried W Oauth_example.grace
           (Scripted.users [failed no_rows; failed Oauth_example.timeout])
           "grace@example.com" (failed no_rows) (failed Oauth_example.timeout)
           (Scripted.users [failed Oauth_example.timeout]) (Scripted.users [])
           Oauth_example.timeout);
    first [ discriminate | reflexivity ].
Defined.

(** X28. Only the first entry of [profile.emails] counts: a profile without
    [emails], with an empty list, or whose first entry has no value or an
    empty one is refused with "No email found in Google profile" before
    the store is touched, even when a later entry has an email. *)
Theorem first_email_only {db} (W : World db) (p : Passport.profile) (d : db) :
  (Passport.emails p = None \/ Passport.emails p = Some []
   \/ exists first others,
        Passport.emails p = Some (first :: others)
        /\ JS.truthy (Passport.value first) = false) ->
  Passport.verify W p (start d)
  = (Returned (Passport.Done (Some (Passport.Error "No email found in Google profile")) None),
     start d).
Proof.
  intros H. apply missing_email_reported. unfold Passport.email_of.
  destruct H as [-> | [-> | (first & others & -> & Hv)]]; [reflexivity | reflexivity |].
  exact Hv.
Qed.

Lemma first_email_only_witness :
  let p := {| Passport.id := "g-5"; Passport.displayName := Some "Heidi";
              Passport.name := None;
              Passport.emails := Some [{| Passport.value := None |};
                                       {| Passport.value := Some "heidi@example.com" |}] |} in
  result (Passport.verify (Example_world.world MemStore.store) p) []
  = Returned (Passport.Done (Some (Passport.Error "No email found in Google profile")) None).
Proof.
  intros p. unfold result.
  rewrite (first_email_only (Example_world.world MemStore.store) p []); [reflexivity|].
  right. right. eexists _, _. split; reflexivity.
Defined.

(** ** The form under which the callback stores names and emails *)

Lemma lower_char_idempotent (c : ascii) : JS.lower_char (JS.lower_char c) = JS.lower_char c.
Proof. destruct c as [[] [] [] [] [] [] [] []]; reflexivity. Qed.

Lemma is_space_lower_char (c : ascii) : JS.is_space (JS.lower_char c) = JS.is_space c.
Proof. destruct c as [[] [] [] [] [] [] [] []]; reflexivity. Qed.

Lemma lower_char_not_upper (c : ascii) : is_upper (JS.lower_char c) = false.
Proof. destruct c as [[] [] [] [] [] [] [] []]; reflexivity. Qed.

Lemma toLowerCase_idempotent (s : string) :
  JS.toLowerCase (JS.toLowerCase s) = JS.toLowerCase s.
Proof.
  induction s as [|c s IH]; [reflexivity|].
  cbn [JS.toLowerCase]. rewrite lower_char_idempotent, IH. reflexivity.
Qed.

Lemma toLowerCase_no_upper (s : string) :
  string_forall (fun c => negb (is_upper c)) (JS.toLowerCase s) = true.
Proof.
  induction s as [|c s IH]; [reflexivity|].
  cbn [JS.toLowerCase string_forall]. rewrite lower_char_not_upper, IH. reflexivity.
Qed.

Lemma trim_start_toLowerCase (s : string) :
  JS.toLowerCase (JS.trim_start s) = JS.trim_start (JS.toLowerCase s).
Proof.
  induction s as [|c s IH]; [reflexivity|].
  cbn [JS.toLowerCase JS.trim_start]. rewrite is_space_lower_char.
  destruct (JS.is_space c); [exact IH | reflexivity].
Qed.

Lemma trim_end_toLowerCase (s : string) :
  JS.toLowerCase (JS.trim_end s) = JS.trim_end (JS.toLowerCase s).
Proof.
  induction s as [|c s IH]; [reflexivity|].
  cbn [JS.toLowerCase JS.trim_end]. rewrite <- IH, is_space_lower_char.
  destruct (JS.trim_end s); cbn [JS.toLowerCase]; [|reflexivity].
  destruct (JS.is_space c); reflexivity.
Qed.

Lemma trim_toLowerCase (s : string) :
  JS.toLowerCase (JS.trim s) = JS.trim (JS.toLowerCase s).
Proof. unfold JS.trim. rewrite trim_end_toLowerCase, trim_start_toLowerCase. reflexivity. Qed.

Lemma trim_end_idempotent (s : string) : JS.trim_end (JS.trim_end s) = JS.trim_end s.
Proof.
  induction s as [|c s IH]; [reflexivity|].
  cbn [JS.trim_end]. destruct (JS.trim_end s) as [|a b] eqn:E.
  - destruct (JS.is_space c) eqn:Ec; [reflexivity|].
    cbn [JS.trim_end]. rewrite Ec. reflexivity.
  - change (JS.trim_end (String c (String a b)) = String c (String a b)).
    cbn [JS.trim_end] in *. rewrite IH. reflexivity.
Qed.

Lemma trim_start_first (s : string) : not_space (first_char (JS.trim_start s)) = true.
Proof.
  induction s as [|c s IH]; [reflexivity|].
  cbn [JS.trim_start]. destruct (JS.is_space c) eqn:Ec; [exact IH|].
  cbn [first_char not_space]. rewrite Ec. reflexivity.
Qed.

Lemma trim_start_fixed (s : string) :
  not_space (first_char s) = true -> JS.trim_start s = s.
Proof.
  destruct s as [|c s]; [reflexivity|].
  cbn [first_char not_space JS.trim_start]. intros H.
  destruct (JS.is_space c); [discriminate | reflexivity].
Qed.

Lemma trim_end_first (s : string) :
  not_space (first_char s) = true -> not_space (first_char (JS.trim_end s)) = true.
Proof.
  destruct s as [|c s]; [reflexivity|].
  cbn [first_char not_space JS.trim_end]. intros H.
  destruct (JS.trim_end s); [|exact H].
  destruct (JS.is_space c) eqn:Ec; [discriminate|].
  cbn [first_char not_space]. rewrite Ec. reflexivity.
Qed.

Lemma trim_end_last (s : string) : not_space (last_char (JS.trim_end s)) = true.
Proof.
  induction s as [|c s IH]; [reflexivity|].
  cbn [JS.trim_end]. destruct (JS.trim_end s) as [|a b].
  - destruct (JS.is_space c) eqn:Ec; [reflexivity|].
    cbn [last_char not_space]. rewrite Ec. reflexivity.
  - exact IH.
Qed.

Lemma trim_idempotent (s : string) : JS.trim (JS.trim s) = JS.trim s.
Proof.
  unfold JS.trim.
  rewrite (trim_start_fixed (JS.trim_end (JS.trim_start s))).
  - apply trim_end_idempotent.
  - apply trim_end_first, trim_start_first.
Qed.

Lemma stored_form_fixed (e : string) : stored_form (stored_form e) = stored_form e.
Proof.
  unfold stored_form.
  rewrite <- (trim_toLowerCase e), toLowerCase_idempotent, trim_toLowerCase.
  apply trim_idempotent.
Qed.

(** X29. Whatever the callback inserts is in stored form: the email of
    every insert it makes has no upper-case letter, no white space at
    either end and is left unchanged by [toLowerCase().trim()], and the
    name is left unchanged by [trim()]. *)
Theorem inserted_user_is_normalized {db} (W : World db) (p : Passport.profile) (d : db)
    (name email : string) (password : option string) :
  In (EUserQuery (InsertUser name email password)) (trace (Passport.verify W p) d) ->
  stored_form email = email
  /\ string_forall (fun c => negb (is_upper c)) email = true
  /\ not_space (first_char email) = true
  /\ not_space (last_char email) = true
  /\ JS.trim name = name.
Proof.
  assert (Hnorm : forall e n,
             stored_form (stored_form e) = stored_form e
             /\ string_forall (fun c => negb (is_upper c)) (stored_form e) = true
             /\ not_space (first_char (stored_form e)) = true
             /\ not_space (last_char (stored_form e)) = true
             /\ JS.trim (JS.trim n) = JS.trim n).
  { intros e n. split; [apply stored_form_fixed|]. split.
    - unfold stored_form. rewrite <- trim_toLowerCase. apply toLowerCase_no_upper.
    - split; [apply trim_end_first, trim_start_first|].
      split; [apply trim_end_last | apply trim_idempotent]. }
  destruct (JS.truthy (Passport.email_of p)) eqn:E.
  - destruct (truthy_inv _ E) as (e & He & Hne).
    rewrite (verify_with_email W p e He Hne).
    run_handler; intros H;
      repeat (destruct H as [H | H]; [try discriminate|]); try contradiction;
      injection H as <- <- <-; apply Hnorm.
  - unfold trace. rewrite (missing_email_reported W p d E). intros [].
Qed.

Lemma inserted_user_is_normalized_witness :
  stored_form "frank@example.com" = "frank@example.com"
  /\ string_forall (fun c => negb (is_upper c)) "frank@example.com" = true
  /\ not_space (first_char "frank@example.com") = true
  /\ not_space (last_char "frank@example.com") = true
  /\ JS.trim "Frank" = "Frank".
Proof.
  apply (inserted_user_is_normalized (Example_world.world MemStore.store)
           Oauth_example.frank [] "Frank" "frank@example.com" None).
  vm_compute. right. left. reflexivity.
Defined.
